(** * Sealer: the kubeadm runtime's join / leave orchestration

    A shallow embedding of [pkg/runtime/kubernetes] (the master join and
    master delete paths, the join-credential fetch and the version-aware
    kubeadm command builder) together with the properties the design
    document states about them.

    Conventions of the embedding.
    - A Go [string] is a [string]; a [net.IP] is represented by the text
      its [String()] method yields, which is what every [%s] of the source
      prints and what [IP.Equal] compares up to the 4-byte / 16-byte form.
    - A Go [error] is [option string]: [None] is [nil], [Some msg] carries
      the message.
    - The receiver [k *Runtime] is threaded as state.  Calls that leave the
      process (the SSH client, the helpers of the package that are declared
      in other files) are recorded in a trace and answered by an oracle
      that sees the whole history, so that the same command may be answered
      differently at different times.
    - A goroutine fan-out ([errgroup]) is run in slice order, every worker
      to completion, and the group's result is the first error met; the
      context returned by [errgroup.WithContext] is discarded by the source,
      so no worker is ever cancelled. *)

From Stdlib Require Import ZArith Lia Ascii String DecimalString.
From stdpp Require Import gmap strings list fin_maps sorting.

Local Open Scope Z_scope.

(* Appending to a literal computes. *)
#[local] Arguments String.append !s1 s2 : simpl nomatch.

(** ** The Go standard library, as far as the package uses it *)

Module strings.

Definition LF : ascii := Ascii.ascii_of_nat 10.
Definition CR : ascii := Ascii.ascii_of_nat 13.
Definition DQ : ascii := Ascii.ascii_of_nat 34.

Definition lf : string := String LF "".
Definition crlf : string := String CR (String LF "").
Definition dq : string := String DQ "".

Definition HasPrefix (s prefix : string) : bool := String.prefix prefix s.

(** [strings.Split(s, sep)] for a non-empty [sep]: cut at every
    non-overlapping occurrence, leftmost first.  [skip] counts the
    characters of a separator just matched that are still to be dropped,
    [cur] is the segment being read (reversed). *)
Fixpoint split_go (sep : string) (skip : nat) (cur : list ascii) (s : string)
  : list string :=
  match s with
  | EmptyString => [string_of_list_ascii (rev cur)]
  | String c s' =>
      match skip with
      | S n => split_go sep n cur s'
      | O =>
          if String.prefix sep s
          then string_of_list_ascii (rev cur)
                 :: split_go sep (Nat.pred (String.length sep)) [] s'
          else split_go sep O (c :: cur) s'
      end
  end.

(** With an empty separator Go explodes the string into its characters. *)
Definition Split (s sep : string) : list string :=
  match sep with
  | EmptyString => map (fun c => String c "") (list_ascii_of_string s)
  | _ => split_go sep O [] s
  end.

(** [strings.Replace(s, old, new, -1)] for a non-empty [old]. *)
Fixpoint replace_go (old new : string) (skip : nat) (s : string) : string :=
  match s with
  | EmptyString => ""
  | String c s' =>
      match skip with
      | S n => replace_go old new n s'
      | O =>
          if String.prefix old s
          then new +:+ replace_go old new (Nat.pred (String.length old)) s'
          else String c (replace_go old new O s')
      end
  end.

Definition Replace (s old new : string) : string := replace_go old new O s.

Definition Join (elems : list string) (sep : string) : string :=
  String.concat sep elems.

(** [strings.ToLower] on the ASCII range (node names and host names are
    DNS labels). *)
Definition lower (c : ascii) : ascii :=
  let n := Ascii.nat_of_ascii c in
  if ((65 <=? n) && (n <=? 90))%nat then Ascii.ascii_of_nat (n + 32) else c.

Fixpoint ToLower (s : string) : string :=
  match s with
  | EmptyString => ""
  | String c s' => String (lower c) (ToLower s')
  end.

(** [strings.TrimSpace]: the ASCII white space of [unicode.IsSpace]. *)
Definition isSpace (c : ascii) : bool :=
  let n := Ascii.nat_of_ascii c in
  ((9 <=? n) && (n <=? 13) || (n =? 32))%nat.

Fixpoint trimLeft (s : string) : string :=
  match s with
  | EmptyString => ""
  | String c s' => if isSpace c then trimLeft s' else s
  end.

Fixpoint trimRight (s : string) : string :=
  match s with
  | EmptyString => ""
  | String c s' =>
      match trimRight s' with
      | EmptyString => if isSpace c then "" else String c ""
      | t => String c t
      end
  end.

Definition TrimSpace (s : string) : string := trimRight (trimLeft s).

(** Membership of a character in a string. *)
Fixpoint hasChar (c : ascii) (s : string) : bool :=
  match s with
  | EmptyString => false
  | String d s' => if Ascii.eqb c d then true else hasChar c s'
  end.

(** [strings.Contains]. *)
Fixpoint Contains (s substr : string) : bool :=
  if String.prefix substr s then true
  else match s with
       | EmptyString => false
       | String _ s' => Contains s' substr
       end.

End strings.

Module strconv.
Definition Itoa (i : Z) : string := NilZero.string_of_int (Z.to_int i).
End strconv.

Module fmt.

(** [fmt.Sprintf] restricted to what the package does with it: every
    verb ([%s], [%v], [%d]) prints the next operand, which the caller
    passes already rendered as text; [%%] is a percent sign; a verb
    without operand prints Go's [%!v(MISSING)]. *)
Fixpoint Sprintf (format : string) (args : list string) : string :=
  match format with
  | EmptyString => ""
  | String c rest =>
      if Ascii.eqb c "%" then
        match rest with
        | EmptyString => "%!(NOVERB)"
        | String v rest' =>
            if Ascii.eqb v "%" then String "%" (Sprintf rest' args)
            else match args with
                 | a :: args' => a +:+ Sprintf rest' args'
                 | [] => "%!" +:+ String v "(MISSING)" +:+ Sprintf rest' []
                 end
        end
      else String c (Sprintf rest args)
  end.

(** [%s] / [%v] of a [[]string]. *)
Definition Strings (l : list string) : string :=
  "[" +:+ strings.Join l " " +:+ "]".

(** [%v] of a [map[string]string]: the entries in the order of their
    keys. *)
Definition Map (m : gmap string string) : string :=
  let entries :=
    merge_sort (fun x y => Is_true (String.leb x.1 y.1)) (map_to_list m) in
  "map[" +:+ strings.Join (map (fun e => e.1 +:+ ":" +:+ e.2) entries) " "
  +:+ "]".

End fmt.

(** A Go [error]: [None] is [nil]. *)
Abbreviation error := (option string).

Module errors.
(** [errors.Wrap(err, message)] of [github.com/pkg/errors]. *)
Definition Wrap (err message : string) : string := message +:+ ": " +:+ err.
End errors.

(** ** Version policy *)

Module versionUtils.

(** Modelled from the spec: [utils/version] (the type [Version] and its
    method [Compare]) is a package this development does not have.  The design
    document calls the cluster version a "semver string" and has
    [BuildCommand] "compare version against a fixed threshold": versions
    at or above it take one family, versions below the other, and an
    "unknown version falls back to the lower-bound command family and
    logs a warning rather than failing".  A version is read as
    [major.minor.patch], three decimal numbers, with an optional leading
    [v] (the threshold constant carries one, the scenarios of the document
    do not); anything else is unknown. *)
Definition number (s : string) : option N :=
  option_map N.of_uint (NilZero.uint_of_string s).

Definition parse (v : string) : option (N * N * N) :=
  let v := match v with String "v" rest => rest | _ => v end in
  match strings.Split v "." with
  | [a; b; c] =>
      match number a, number b, number c with
      | Some x, Some y, Some z => Some (x, y, z)
      | _, _, _ => None
      end
  | _ => None
  end.

(** [geb a b]: [a] is at or above [b] in the order of versions. *)
Definition geb (a b : N * N * N) : bool :=
  let '(a1, a2, a3) := a in
  let '(b1, b2, b3) := b in
  (b1 <? a1)%N
  || ((b1 =? a1)%N && ((b2 <? a2)%N || ((b2 =? a2)%N && (b3 <=? a3)%N))).

(** Modelled from the spec: [Version(v).Compare(ver)], see [parse].  The
    document does not give the text of the error; only its presence
    matters below. *)
Definition Compare (v ver : string) : bool * error :=
  match parse v, parse ver with
  | Some a, Some b => (geb a b, None)
  | _, _ => (false, Some ("error version format " +:+ v +:+ " " +:+ ver))
  end.

End versionUtils.

(** ** Constants of the package *)

Definition V1991 : string := "v1.19.1".
Definition V1992 : string := "v1.19.2".
Definition V1150 : string := "v1.15.0".
Definition V1200 : string := "v1.20.0".
Definition V1230 : string := "v1.23.0".

Definition RemoteAddEtcHosts : string :=
  "cat /etc/hosts |grep '%s' || echo '%s' >> /etc/hosts".
Definition RemoteUpdateEtcHosts : string :=
  "sed " +:+ strings.dq +:+ "s/%s/%s/g" +:+ strings.dq
  +:+ " < /etc/hosts > hosts && cp -f hosts /etc/hosts".
Definition RemoteCopyKubeConfig : string :=
  "rm -rf .kube/config && mkdir -p /root/.kube && cp /etc/kubernetes/admin.conf /root/.kube/config".
Definition RemoteNonRootCopyKubeConfig : string :=
  "rm -rf ${HOME}/.kube/config && mkdir -p ${HOME}/.kube && cp /etc/kubernetes/admin.conf ${HOME}/.kube/config && chown $(id -u):$(id -g) ${HOME}/.kube/config".
Definition RemoteReplaceKubeConfig : string :=
  "grep -qF " +:+ strings.dq +:+ "apiserver.cluster.local" +:+ strings.dq
  +:+ " %s  && sed -i 's/apiserver.cluster.local/%s/' %s && sed -i 's/apiserver.cluster.local/%s/' %s".
Definition RemoteJoinMasterConfig : string :=
  "echo " +:+ strings.dq +:+ "%s" +:+ strings.dq +:+ " > %s/etc/kubeadm.yml".
Definition InitMaster115Lower : string :=
  "kubeadm init --config=%s/etc/kubeadm.yml --experimental-upload-certs".
Definition JoinMaster115Lower : string :=
  "kubeadm join %s:6443 --token %s --discovery-token-ca-cert-hash %s --experimental-control-plane --certificate-key %s".
Definition JoinNode115Lower : string :=
  "kubeadm join %s:6443 --token %s --discovery-token-ca-cert-hash %s".
Definition InitMaser115Upper : string :=
  "kubeadm init --config=%s/etc/kubeadm.yml --upload-certs".
Definition JoinMaster115Upper : string :=
  "kubeadm join --config=%s/etc/kubeadm.yml".
Definition JoinNode115Upper : string :=
  "kubeadm join --config=%s/etc/kubeadm.yml".
Definition RemoveKubeConfig : string :=
  "rm -rf /usr/bin/kube* && rm -rf ~/.kube/".
Definition RemoteCleanMasterOrNode : string :=
  "if which kubeadm;then kubeadm reset -f %s;fi && \
modprobe -r ipip  && lsmod && \
rm -rf /etc/kubernetes/ && \
rm -rf /etc/systemd/system/kubelet.service.d && rm -rf /etc/systemd/system/kubelet.service && \
rm -rf /usr/bin/kubeadm && rm -rf /usr/bin/kubelet-pre-start.sh && \
rm -rf /usr/bin/kubelet && rm -rf /usr/bin/crictl && \
rm -rf /etc/cni && rm -rf /opt/cni && \
rm -rf /var/lib/etcd && rm -rf /var/etcd 
".
Definition RemoteRemoveAPIServerEtcHost : string :=
  "sed -i " +:+ strings.dq +:+ "/%s/d" +:+ strings.dq +:+ " /etc/hosts".
Definition RemoveLvscareStaticPod : string :=
  "rm -rf  /etc/kubernetes/manifests/kube-sealyun-lvscare*".
Definition CreateLvscareStaticPod : string :=
  "mkdir -p /etc/kubernetes/manifests && echo '%s' > /etc/kubernetes/manifests/kube-sealyun-lvscare.yaml".
Definition KubeDeleteNode : string := "kubectl delete node %s".

Definition AdminConf : string := "admin.conf".
Definition ControllerConf : string := "controller-manager.conf".
Definition SchedulerConf : string := "scheduler.conf".

Definition KUBECONTROLLERCONFIGFILE : string := "/etc/kubernetes/controller-manager.conf".
Definition KUBESCHEDULERCONFIGFILE : string := "/etc/kubernetes/scheduler.conf".

(** [type CommandType string] *)
Abbreviation CommandType := string.

Definition InitMaster : CommandType := "initMaster".
Definition JoinMaster : CommandType := "joinMaster".
Definition JoinNode : CommandType := "joinNode".

(** ** Data *)

(** [net.IP], by the text of its [String()]. *)
Abbreviation IP := string.

(** [ip.Equal(x)]. *)
Definition IP_Equal (ip x : IP) : bool := String.eqb ip x.

(** What the getters of the runtime read from the cluster description and
    the image layout ([k.getRootfs()], [k.cluster.GetMaster0IP()], ...).
    None of the modelled functions writes them. *)
Record Cluster := {
  Rootfs : string;
  BasePath : string;
  PKIPath : string;
  CertsDir : string;
  Master0IP : IP;
  MasterIPList : list IP;
  NodeIPList : list IP;
  VIP : string;
  APIServerDomain : string;
  KubeVersion : string;
  CertSANS : list string;
  SvcCIDR : string
}.

(** [k.RegConfig]; [Repo] is what the method [Repo()] returns. *)
Record RegistryConfig := {
  Domain : string;
  RegIP : IP;
  Port : string;
  Username : string;
  Password : string;
  Repo : string
}.

(** The part of the kubeadm configuration the join path stamps. *)
Record KubeadmConfig := {
  JoinToken : string;
  TokenCaCertHash : string;
  CertificateKey : string;
  APIServerEndpoint : string;
  JoinAdvertiseAddress : IP;
  CgroupDriver : string
}.

Record Runtime := {
  cluster : Cluster;
  Vlog : Z;
  RegConfig : RegistryConfig;
  Config : KubeadmConfig
}.

Definition withConfig (k : Runtime) (c : KubeadmConfig) : Runtime :=
  {| cluster := cluster k; Vlog := Vlog k; RegConfig := RegConfig k; Config := c |}.

Definition withCertificateKey (c : KubeadmConfig) (v : string) : KubeadmConfig :=
  {| JoinToken := JoinToken c; TokenCaCertHash := TokenCaCertHash c;
     CertificateKey := v; APIServerEndpoint := APIServerEndpoint c;
     JoinAdvertiseAddress := JoinAdvertiseAddress c; CgroupDriver := CgroupDriver c |}.

Definition withAPIServerEndpoint (c : KubeadmConfig) (v : string) : KubeadmConfig :=
  {| JoinToken := JoinToken c; TokenCaCertHash := TokenCaCertHash c;
     CertificateKey := CertificateKey c; APIServerEndpoint := v;
     JoinAdvertiseAddress := JoinAdvertiseAddress c; CgroupDriver := CgroupDriver c |}.

Definition withJoinAdvertiseAddress (c : KubeadmConfig) (v : IP) : KubeadmConfig :=
  {| JoinToken := JoinToken c; TokenCaCertHash := TokenCaCertHash c;
     CertificateKey := CertificateKey c; APIServerEndpoint := APIServerEndpoint c;
     JoinAdvertiseAddress := v; CgroupDriver := CgroupDriver c |}.

Definition withCgroupDriver (c : KubeadmConfig) (v : string) : KubeadmConfig :=
  {| JoinToken := JoinToken c; TokenCaCertHash := TokenCaCertHash c;
     CertificateKey := CertificateKey c; APIServerEndpoint := APIServerEndpoint c;
     JoinAdvertiseAddress := JoinAdvertiseAddress c; CgroupDriver := v |}.

(** ** The world outside the package *)

Inductive Level := DebugLevel | InfoLevel | ErrorLevel.

(** What the modelled functions do that is visible from outside: calls of
    the SSH client and of package helpers declared in other files, the
    operations on the runtime's mutex and on the shared join configuration,
    and log lines. *)
Inductive Event :=
| EvGetHostSSHClient (host : IP)
| EvCmdAsync (host : IP) (cmds : list string)
| EvCmd (host : IP) (cmd : string)
| EvCmdToString (host : IP) (cmd split : string)
| EvCopy (host : IP) (src dst : string)
| EvMergeKubeadmConfig
| EvWaitSSHReady (tryTimes : Z) (hosts : list IP)
| EvCopyStaticFiles (hosts : list IP)
| EvGetRemoteHostName (host : IP)
| EvGetCgroupDriverFromShell (host : IP)
| EvNewMutex
| EvLock
| EvUnlock
| EvSetAPIServerEndpoint (endpoint : string)
| EvSetJoinAdvertiseAddress (ip : IP)
| EvSetCgroupDriver (driver : string)
| EvMarshalJoinConfig
| EvLog (level : Level) (msg : string).

(** Everything the functions below use and do not declare.  [oracle]
    answers a call given the events so far; for [EvGetHostSSHClient] the
    text of the answer is the login user of the client.
    [mergedKubeadmConfig] and [decodedMaster0Output] are what the two
    helpers that exist to rewrite the runtime, [MergeKubeadmConfig] and
    [decodeMaster0Output], make of it; the other calls leave alone what the
    functions below read of the runtime. *)
Record Env := {
  DockerCertDir : string;
  SeaHub : string;
  ROOT : string;
  KubernetesConfigDir : string;
  KubeDefaultCertPath : string;
  IsInContainer : bool;
  GetLocalHostAddresses : list string * error;
  IsLocalIP : IP -> list string -> bool;
  RemoteCerts : list string -> IP -> string -> string -> string -> string;
  GenLoginCommand : Runtime -> string;
  addRegistryDomainToHosts : Runtime -> string;
  MarshalWithDelimiter : KubeadmConfig -> string * error;
  LvsStaticPodYaml : string -> list IP -> string -> string;
  mergedKubeadmConfig : string * error -> Runtime -> Runtime;
  decodedMaster0Output : string -> Runtime -> Runtime;
  oracle : list Event -> Event -> string * error
}.

(** [*ssh.SSH], of which the join path reads the login user. *)
Record SSH := { User : string }.

Record World := { rt : Runtime; trace : list Event }.

(** A run either returns or panics; both leave a world behind. *)
Inductive Exec (A : Type) :=
| Done (a : A) (w : World)
| Panicked (msg : string) (w : World).
Arguments Done {A} a w.
Arguments Panicked {A} msg w.

Definition M (A : Type) : Type := World -> Exec A.

Definition ret {A} (a : A) : M A := fun w => Done a w.

Definition bind {A B} (m : M A) (f : A -> M B) : M B :=
  fun w => match m w with
           | Done a w' => f a w'
           | Panicked msg w' => Panicked msg w'
           end.

Declare Scope go_scope.
Delimit Scope go_scope with go.
Notation "x <- m ;; k" := (bind m (fun x => k))
  (at level 20, m at level 99, k at level 200, only parsing) : go_scope.
Notation "' pat <- m ;; k" := (bind m (fun x => match x with pat => k end))
  (at level 20, pat pattern, m at level 99, k at level 200, only parsing)
  : go_scope.
Notation "m ;; k" := (bind m (fun _ => k))
  (at level 100, k at level 200, only parsing, right associativity) : go_scope.
Local Open Scope go_scope.

Definition world {A} (r : Exec A) : World :=
  match r with Done _ w => w | Panicked _ w => w end.

Definition value {A} (r : Exec A) : option A :=
  match r with Done a _ => Some a | Panicked _ _ => None end.

(** The events a run adds to the trace it starts from. *)
Definition emitted {A} (m : M A) (w : World) : list Event :=
  drop (length (trace w)) (trace (world (m w))).

Definition this : M Runtime := fun w => Done (rt w) w.

Definition assign (k : Runtime) : M unit :=
  fun w => Done tt {| rt := k; trace := trace w |}.

(** The world after one more event. *)
Definition record (w : World) (e : Event) : World :=
  {| rt := rt w; trace := trace w ++ [e] |}.

Definition note (e : Event) : M unit := fun w => Done tt (record w e).

Definition panic {A} (msg : string) : M A := fun w => Panicked msg w.

Definition nilDereference : string :=
  "runtime error: invalid memory address or nil pointer dereference".

Module logrus.
Definition Debugf (format : string) (args : list string) : M unit :=
  note (EvLog DebugLevel (fmt.Sprintf format args)).
Definition Infof (format : string) (args : list string) : M unit :=
  note (EvLog InfoLevel (fmt.Sprintf format args)).
Definition Info (msg : string) : M unit := note (EvLog InfoLevel msg).
Definition Errorf (format : string) (args : list string) : M unit :=
  note (EvLog ErrorLevel (fmt.Sprintf format args)).
End logrus.

Module errgroup.
(** [for _, x := range l { x := x; eg.Go(func() error { ... }) }] followed
    by [eg.Wait()]: every worker runs, the first error is the result. *)
Fixpoint forEach {A} (l : list A) (worker : A -> M error) : M error :=
  match l with
  | [] => ret None
  | x :: l' =>
      err <- worker x ;;
      rest <- forEach l' worker ;;
      ret (match err with Some _ => err | None => rest end)
  end.
End errgroup.

(** ** Getters of the runtime *)

Definition getRootfs (k : Runtime) : string := Rootfs (cluster k).
Definition getBasePath (k : Runtime) : string := BasePath (cluster k).
Definition getPKIPath (k : Runtime) : string := PKIPath (cluster k).
Definition getCertsDir (k : Runtime) : string := CertsDir (cluster k).
Definition GetMaster0IP (k : Runtime) : IP := Master0IP (cluster k).
Definition GetMasterIPList (k : Runtime) : list IP := MasterIPList (cluster k).
Definition GetNodeIPList (k : Runtime) : list IP := NodeIPList (cluster k).
Definition getVIP (k : Runtime) : string := VIP (cluster k).
Definition getAPIServerDomain (k : Runtime) : string := APIServerDomain (cluster k).
Definition getKubeVersion (k : Runtime) : string := KubeVersion (cluster k).
Definition getCertSANS (k : Runtime) : list string := CertSANS (cluster k).
Definition getSvcCIDR (k : Runtime) : string := SvcCIDR (cluster k).
Definition getJoinToken (k : Runtime) : string := JoinToken (Config k).
Definition getTokenCaCertHash (k : Runtime) : string := TokenCaCertHash (Config k).
Definition getCertificateKey (k : Runtime) : string := CertificateKey (Config k).

Definition getAPIServerHost (ipAddr : IP) (APIServer : string) : string :=
  fmt.Sprintf "%s %s" [ipAddr; APIServer].

Definition vlogToStr (vlog : Z) : string :=
  let str := strconv.Itoa vlog in
  " -v " +:+ str.

(** ** The runtime *)

Section Kubernetes.

Context (E : Env).

(** A call that leaves the modelled code: recorded, then answered. *)
Definition call (e : Event) : M (string * error) :=
  fun w => Done (oracle E (trace w) e) (record w e).

(** [k.getHostSSHClient(host)]; a failed lookup hands back a nil client. *)
Definition getHostSSHClient (host : IP) : M (option SSH * error) :=
  '(user, err) <- call (EvGetHostSSHClient host) ;;
  ret (match err with
       | None => (Some {| User := user |}, None)
       | Some _ => (None, err)
       end).

(** Methods of [ssh.Interface]; on a nil client they panic. *)
Definition ssh_CmdAsync (client : option SSH) (host : IP) (cmds : list string)
  : M error :=
  match client with
  | None => panic nilDereference
  | Some _ => '(_, err) <- call (EvCmdAsync host cmds) ;; ret err
  end.

Definition ssh_Cmd (client : option SSH) (host : IP) (cmd : string)
  : M (string * error) :=
  match client with
  | None => panic nilDereference
  | Some _ => call (EvCmd host cmd)
  end.

Definition ssh_Copy (client : option SSH) (host : IP) (src dst : string)
  : M error :=
  match client with
  | None => panic nilDereference
  | Some _ => '(_, err) <- call (EvCopy host src dst) ;; ret err
  end.

(** Methods of the runtime declared in other files of the package: each
    is a call answered by the outside world. *)
Definition CmdToString (host : IP) (cmd split : string) : M (string * error) :=
  call (EvCmdToString host cmd split).

Definition MergeKubeadmConfig : M error :=
  answer <- call EvMergeKubeadmConfig ;;
  k <- this ;;
  assign (mergedKubeadmConfig E answer k) ;;
  ret answer.2.

Definition WaitSSHReady (tryTimes : Z) (hosts : list IP) : M error :=
  '(_, err) <- call (EvWaitSSHReady tryTimes hosts) ;; ret err.

Definition CopyStaticFiles (nodes : list IP) : M error :=
  '(_, err) <- call (EvCopyStaticFiles nodes) ;; ret err.

Definition getRemoteHostName (hostIP : IP) : M (string * error) :=
  call (EvGetRemoteHostName hostIP).

(** Modelled from the spec: [getCgroupDriverFromShell] is declared in
    another file of the package, which this development does not have; the
    render step "detects that host's current cgroup driver by remote
    probe", so the call counts as network I/O. *)
Definition getCgroupDriverFromShell (node : IP) : M (string * error) :=
  call (EvGetCgroupDriverFromShell node).

Definition Lock : M unit := note EvLock.
Definition Unlock : M unit := note EvUnlock.

(** Modelled from the spec: the setters of the join configuration are
    declared in another file of the package, which this development does
    not have; the render step "stamps the shared join-configuration
    template with that host's advertise address and detected driver". *)
Definition setAPIServerEndpoint (endpoint : string) : M unit :=
  note (EvSetAPIServerEndpoint endpoint) ;;
  k <- this ;;
  assign (withConfig k (withAPIServerEndpoint (Config k) endpoint)).

Definition setJoinAdvertiseAddress (advertiseAddress : IP) : M unit :=
  note (EvSetJoinAdvertiseAddress advertiseAddress) ;;
  k <- this ;;
  assign (withConfig k (withJoinAdvertiseAddress (Config k) advertiseAddress)).

Definition setCgroupDriver (cGroup : string) : M unit :=
  note (EvSetCgroupDriver cGroup) ;;
  k <- this ;;
  assign (withConfig k (withCgroupDriver (Config k) cGroup)).

(** [k.CertificateKey = key] *)
Definition setCertificateKey (key : string) : M unit :=
  k <- this ;;
  assign (withConfig k (withCertificateKey (Config k) key)).

(** [decodeMaster0Output] is declared in another file of the package; what
    it reads out of the text into the runtime is left to [Env]. *)
Definition decodeMaster0Output (output : string) : M unit :=
  k <- this ;;
  assign (decodedMaster0Output E output k).

Definition JoinMasterCommands (k : Runtime) (master : IP)
           (joinCmd hostname : string) : list string :=
  let apiServerHost := getAPIServerHost (GetMaster0IP k) (getAPIServerDomain k) in
  let cmdAddRegistryHosts := addRegistryDomainToHosts E k in
  let certCMD := RemoteCerts E (getCertSANS k) master hostname (getSvcCIDR k) "" in
  let cmdAddHosts := fmt.Sprintf RemoteAddEtcHosts [apiServerHost; apiServerHost] in
  let cmdAddRegistryHosts :=
    if negb (String.eqb (Domain (RegConfig k)) (SeaHub E)) then
      let cmdAddSeaHubHosts :=
        fmt.Sprintf RemoteAddEtcHosts
          [RegIP (RegConfig k) +:+ " " +:+ SeaHub E;
           RegIP (RegConfig k) +:+ " " +:+ SeaHub E] in
      fmt.Sprintf "%s && %s" [cmdAddRegistryHosts; cmdAddSeaHubHosts]
    else cmdAddRegistryHosts in
  let joinCommands := [cmdAddRegistryHosts; certCMD; cmdAddHosts] in
  let joinCommands :=
    if negb (String.eqb (Username (RegConfig k)) "")
       && negb (String.eqb (Password (RegConfig k)) "")
    then joinCommands ++ [GenLoginCommand E k]
    else joinCommands in
  let cmdUpdateHosts :=
    fmt.Sprintf RemoteUpdateEtcHosts
      [apiServerHost; getAPIServerHost master (getAPIServerDomain k)] in
  joinCommands ++ [joinCmd; cmdUpdateHosts; RemoteCopyKubeConfig].

Definition sendFileToHosts (Hosts : list IP) (src dst : string) : M error :=
  errgroup.forEach Hosts (fun node =>
    '(ssh, err) <- getHostSSHClient node ;;
    match err with
    | Some e => ret (Some (fmt.Sprintf "failed to send file: %v" [e]))
    | None =>
        err' <- ssh_Copy ssh node src dst ;;
        match err' with
        | Some e => ret (Some (fmt.Sprintf "failed to send file: %v" [e]))
        | None => ret err
        end
    end).

Definition sendKubeConfigFile (hosts : list IP) (kubeFile : string) : M error :=
  k <- this ;;
  let absKubeFile := fmt.Sprintf "%s/%s" [KubernetesConfigDir E; kubeFile] in
  let sealerKubeFile := fmt.Sprintf "%s/%s" [getBasePath k; kubeFile] in
  sendFileToHosts hosts sealerKubeFile absKubeFile.

Definition sendNewCertAndKey (hosts : list IP) : M error :=
  k <- this ;;
  sendFileToHosts hosts (getPKIPath k) (KubeDefaultCertPath E).

Definition sendRegistryCert (host : list IP) : M error :=
  k <- this ;;
  let cf := RegConfig k in
  err <- sendFileToHosts host
           (fmt.Sprintf "%s/%s.crt" [getCertsDir k; Domain cf])
           (fmt.Sprintf "%s/%s:%s/%s.crt" [DockerCertDir E; Domain cf; Port cf; Domain cf]) ;;
  match err with
  | Some _ => ret err
  | None =>
      sendFileToHosts host
        (fmt.Sprintf "%s/%s.crt" [getCertsDir k; Domain cf])
        (fmt.Sprintf "%s/%s:%s/%s.crt" [DockerCertDir E; SeaHub E; Port cf; Domain cf])
  end.

(** The loop of [ReplaceKubeConfigV1991V1992]. *)
Fixpoint replaceKubeConfigLoop (masters : list IP) : M bool :=
  match masters with
  | [] => ret true
  | v :: rest =>
      let cmd := fmt.Sprintf RemoteReplaceKubeConfig
                   [KUBESCHEDULERCONFIGFILE; v; KUBECONTROLLERCONFIGFILE; v;
                    KUBESCHEDULERCONFIGFILE] in
      '(ssh, err) <- getHostSSHClient v ;;
      match err with
      | Some e =>
          logrus.Errorf "failed to replace kube config on %s: %v " [v; e] ;;
          ret false
      | None =>
          err' <- ssh_CmdAsync ssh v [cmd] ;;
          match err' with
          | Some e =>
              logrus.Errorf "failed to replace kube config on %s: %v " [v; e] ;;
              ret false
          | None => replaceKubeConfigLoop rest
          end
      end
  end.

Definition ReplaceKubeConfigV1991V1992 (masters : list IP) : M bool :=
  k <- this ;;
  if String.eqb (getKubeVersion k) V1991 || String.eqb (getKubeVersion k) V1992
  then replaceKubeConfigLoop masters
  else ret false.

(** The loop over [files] of [SendJoinMasterKubeConfigs]. *)
Fixpoint sendKubeConfigFiles (masters : list IP) (files : list string) : M error :=
  match files with
  | [] => ret None
  | f :: rest =>
      err <- sendKubeConfigFile masters f ;;
      match err with
      | Some _ => ret err
      | None => sendKubeConfigFiles masters rest
      end
  end.

Definition SendJoinMasterKubeConfigs (masters : list IP) (files : list string)
  : M error :=
  err <- sendKubeConfigFiles masters files ;;
  match err with
  | Some _ => ret err
  | None =>
      replaced <- ReplaceKubeConfigV1991V1992 masters ;;
      (if replaced : bool
       then logrus.Info "set kubernetes v1.19.1 v1.19.2 kube config"
       else ret tt) ;;
      ret None
  end.

(** [joinMasterConfig] renders the join configuration of one master.
    The deferred [k.Unlock()] runs on both returns. *)
Definition joinMasterConfig (masterIP : IP) : M (string * error) :=
  Lock ;;
  k <- this ;;
  setAPIServerEndpoint (fmt.Sprintf "%s:6443" [GetMaster0IP k]) ;;
  setJoinAdvertiseAddress masterIP ;;
  '(cGroupDriver, err) <- getCgroupDriverFromShell masterIP ;;
  match err with
  | Some _ => Unlock ;; ret ("", err)
  | None =>
      setCgroupDriver cGroupDriver ;;
      k <- this ;;
      note EvMarshalJoinConfig ;;
      let result := MarshalWithDelimiter E (Config k) in
      Unlock ;;
      ret result
  end.

(** The body of the goroutine [sendJoinCPConfig] starts per master. *)
Definition sendJoinCPConfigWorker (ip : IP) : M error :=
  '(joinConfig, err) <- joinMasterConfig ip ;;
  match err with
  | Some e => ret (Some (fmt.Sprintf "failed to get join %s config: %v" [ip; e]))
  | None =>
      k <- this ;;
      let cmd := fmt.Sprintf RemoteJoinMasterConfig [joinConfig; getRootfs k] in
      '(ssh, err) <- getHostSSHClient ip ;;
      match err with
      | Some e =>
          ret (Some (fmt.Sprintf "failed to get ssh client of host(%s): %v" [ip; e]))
      | None =>
          err' <- ssh_CmdAsync ssh ip [cmd] ;;
          match err' with
          | Some e =>
              ret (Some (fmt.Sprintf
                           "failed to set join kubeadm config on host(%s) with cmd(%s): %v"
                           [ip; cmd; e]))
          | None => ret None
          end
      end
  end.

Definition sendJoinCPConfig (joinMaster : list IP) : M error :=
  note EvNewMutex ;;
  errgroup.forEach joinMaster sendJoinCPConfigWorker.

Definition CmdAsyncHosts (hosts : list IP) (cmd : string) : M error :=
  errgroup.forEach hosts (fun ip =>
    '(ssh, err) <- getHostSSHClient ip ;;
    (match err with
     | Some e =>
         logrus.Errorf "failed to exec command[%s] on host[%s]: %v" [ip; cmd; e]
     | None => ret tt
     end) ;;
    err' <- ssh_CmdAsync ssh ip [cmd] ;;
    (match err' with
     | Some e =>
         logrus.Errorf "failed to exec command[%s] on host[%s]: %v" [ip; cmd; e]
     | None => ret tt
     end) ;;
    ret err).

Definition Command (version : string) (name : CommandType) : M string :=
  k <- this ;;
  let cmds : gmap string string :=
    {[ InitMaster := fmt.Sprintf InitMaster115Lower [getRootfs k];
       JoinMaster := fmt.Sprintf JoinMaster115Lower
                       [GetMaster0IP k; getJoinToken k; getTokenCaCertHash k;
                        getCertificateKey k];
       JoinNode := fmt.Sprintf JoinNode115Lower
                     [getVIP k; getJoinToken k; getTokenCaCertHash k] ]} in
  let kv := version in
  let '(cmp, err) := versionUtils.Compare kv V1150 in
  (match err with
   | Some e => logrus.Errorf "failed to compare Kubernetes version: %s" [e]
   | None => ret tt
   end) ;;
  let cmds : gmap string string :=
    if cmp then
      <[ JoinNode := fmt.Sprintf JoinNode115Upper [getRootfs k] ]>
        (<[ JoinMaster := fmt.Sprintf JoinMaster115Upper [getRootfs k] ]>
           (<[ InitMaster := fmt.Sprintf InitMaser115Upper [getRootfs k] ]> cmds))
    else cmds in
  match cmds !! name with
  | None =>
      logrus.Errorf "failed to get kubeadm command: %v" [fmt.Map cmds] ;;
      ret ""
  | Some v =>
      if IsInContainer E then
        ret (fmt.Sprintf "%s%s%s"
               [v; vlogToStr (Vlog k); " --ignore-preflight-errors=all"])
      else if String.eqb name InitMaster || String.eqb name JoinMaster then
        ret (fmt.Sprintf "%s%s%s"
               [v; vlogToStr (Vlog k);
                " --ignore-preflight-errors=SystemVerification"])
      else ret (fmt.Sprintf "%s%s" [v; vlogToStr (Vlog k)])
  end.

Definition GetJoinTokenHashAndKey : M error :=
  k <- this ;;
  let cmd := fmt.Sprintf "kubeadm init phase upload-certs --upload-certs -v %d"
               [strconv.Itoa (Vlog k)] in
  '(output, err) <- CmdToString (GetMaster0IP k) cmd strings.crlf ;;
  match err with
  | Some _ => ret err
  | None =>
      logrus.Debugf "[globals]decodeCertCmd: %s" [output] ;;
      let slice := strings.Split output "Using certificate key:" in
      if negb (Nat.eqb (length slice) 2) then
        ret (Some (fmt.Sprintf "failed to get certifacate key: %s"
                     [fmt.Strings slice]))
      else
        let key := strings.Replace (nth 1 slice "") strings.crlf "" in
        setCertificateKey (strings.Replace key strings.lf "") ;;
        let cmd := fmt.Sprintf "kubeadm token create --print-join-command -v %d"
                     [strconv.Itoa (Vlog k)] in
        '(ssh, err) <- getHostSSHClient (GetMaster0IP k) ;;
        match err with
        | Some e =>
            ret (Some (fmt.Sprintf "failed to get join token hash and key: %v" [e]))
        | None =>
            '(out, err') <- ssh_Cmd ssh (GetMaster0IP k) cmd ;;
            match err' with
            | Some e =>
                ret (Some (fmt.Sprintf "failed to create kubeadm join token: %v" [e]))
            | None => decodeMaster0Output out ;; ret None
            end
        end
  end.

(** The loop over [masters] that closes [joinMasters]. *)
Fixpoint joinEachMaster (cmd : string) (masters : list IP) : M error :=
  match masters with
  | [] => ret None
  | master :: rest =>
      logrus.Infof "Start to join %s as master" [master] ;;
      '(hostname, err) <- getRemoteHostName master ;;
      match err with
      | Some _ => ret err
      | None =>
          k <- this ;;
          let cmds := JoinMasterCommands k master cmd hostname in
          '(client, err) <- getHostSSHClient master ;;
          match err with
          | Some _ => ret err
          | None =>
              match client with
              | None => panic "interface conversion: interface is nil, not *ssh.SSH"
              | Some c =>
                  let cmds :=
                    if negb (String.eqb (User c) (ROOT E))
                    then cmds ++ [RemoteNonRootCopyKubeConfig]
                    else cmds in
                  err' <- ssh_CmdAsync client master cmds ;;
                  match err' with
                  | Some e =>
                      ret (Some (fmt.Sprintf
                                   "failed to exec command(%s) on master(%s): %v"
                                   [fmt.Strings cmds; master; e]))
                  | None =>
                      logrus.Infof "Succeeded in joining %s as master" [master] ;;
                      joinEachMaster cmd rest
                  end
              end
          end
      end
  end.

Definition joinMasters (masters : list IP) : M error :=
  if Nat.eqb (length masters) 0 then ret None else
  err <- MergeKubeadmConfig ;;
  match err with Some _ => ret err | None =>
  err <- WaitSSHReady 6 masters ;;
  match err with
  | Some e => ret (Some (errors.Wrap e "join masters wait for ssh ready time out"))
  | None =>
  err <- GetJoinTokenHashAndKey ;;
  match err with Some _ => ret err | None =>
  err <- CopyStaticFiles masters ;;
  match err with Some _ => ret err | None =>
  err <- SendJoinMasterKubeConfigs masters [AdminConf; ControllerConf; SchedulerConf] ;;
  match err with Some _ => ret err | None =>
  err <- sendRegistryCert masters ;;
  match err with Some _ => ret err | None =>
  err <- sendNewCertAndKey masters ;;
  match err with Some _ => ret err | None =>
  err <- sendJoinCPConfig masters ;;
  match err with Some _ => ret err | None =>
  k <- this ;;
  cmd <- Command (getKubeVersion k) JoinMaster ;;
  if String.eqb cmd "" then
    ret (Some (fmt.Sprintf
                 "failed to get join master command, kubernetes version is %s"
                 [getKubeVersion k]))
  else joinEachMaster cmd masters
  end end end end end end end end.

(** The loop of [isHostName] over the node names of the cluster. *)
Fixpoint matchHostName (hostName : string) (hosts : list string) : string :=
  match hosts with
  | [] => ""
  | h :: rest =>
      if String.eqb (strings.TrimSpace h) "" then matchHostName hostName rest
      else
        let hh := strings.ToLower h in
        let fromH := strings.ToLower hostName in
        if String.eqb hh fromH then h else matchHostName hostName rest
  end.

Definition isHostName (master host : IP) : M (string * error) :=
  '(hostString, err) <-
    CmdToString master "kubectl get nodes | grep -v NAME  | awk '{print $1}'" "," ;;
  match err with
  | Some _ => ret ("", err)
  | None =>
      '(hostName, err) <- CmdToString host "hostname" "" ;;
      match err with
      | Some _ => ret ("", err)
      | None =>
          let hosts := strings.Split hostString "," in
          ret (matchHostName hostName hosts, None)
      end
  end.

Definition RemoteRemoveRegistryCerts : string :=
  "rm -rf " +:+ DockerCertDir E +:+ "/%s*".

(** The command bundle [deleteMaster] runs on the master it removes. *)
Definition remoteCleanCmd (k : Runtime) (master : IP) : list string :=
  let remoteCleanCmd :=
    [fmt.Sprintf RemoteCleanMasterOrNode [vlogToStr (Vlog k)];
     fmt.Sprintf RemoteRemoveAPIServerEtcHost [Domain (RegConfig k)];
     fmt.Sprintf RemoteRemoveAPIServerEtcHost [SeaHub E];
     fmt.Sprintf RemoteRemoveRegistryCerts [Domain (RegConfig k)];
     fmt.Sprintf RemoteRemoveRegistryCerts [SeaHub E];
     fmt.Sprintf RemoteRemoveAPIServerEtcHost [getAPIServerDomain k]] in
  let '(address, err) := GetLocalHostAddresses E in
  if (match err with Some _ => true | None => false end)
     || negb (IsLocalIP E master address)
  then remoteCleanCmd ++ [RemoveKubeConfig]
  else
    let apiServerHost := getAPIServerHost (GetMaster0IP k) (getAPIServerDomain k) in
    remoteCleanCmd ++ [fmt.Sprintf RemoteAddEtcHosts [apiServerHost; apiServerHost]].

(** The goroutine [deleteMaster] starts per worker node. *)
Definition updateLvscareStaticPod (yaml : string) (node : IP) : M error :=
  '(ssh, err) <- getHostSSHClient node ;;
  (match err with
   | Some e =>
       logrus.Errorf "failed to update lvscare static pod on node(%s): %v" [node; e]
   | None => ret tt
   end) ;;
  err' <- ssh_CmdAsync ssh node
            [RemoveLvscareStaticPod; fmt.Sprintf CreateLvscareStaticPod [yaml]] ;;
  (match err' with
   | Some e =>
       logrus.Errorf "failed to update lvscare static pod on node(%s): %v" [node; e]
   | None => ret tt
   end) ;;
  ret err.

Definition deleteMaster (master : IP) : M error :=
  '(ssh, err) <- getHostSSHClient master ;;
  match err with
  | Some e => ret (Some (fmt.Sprintf "failed to delete master: %v" [e]))
  | None =>
  k <- this ;;
  err <- ssh_CmdAsync ssh master (remoteCleanCmd k master) ;;
  match err with Some _ => ret err | None =>
  let masterIPs :=
    List.filter (fun ip => negb (IP_Equal ip master)) (GetMasterIPList k) in
  err <-
    (if Nat.ltb 0 (length masterIPs) then
       '(hostname, err) <- isHostName (GetMaster0IP k) master ;;
       match err with Some _ => ret err | None =>
       '(master0SSH, err) <- getHostSSHClient (GetMaster0IP k) ;;
       match err with
       | Some e => ret (Some (fmt.Sprintf "failed to get master0 ssh client: %v" [e]))
       | None =>
           err' <- ssh_CmdAsync master0SSH (GetMaster0IP k)
                     [fmt.Sprintf KubeDeleteNode [strings.TrimSpace hostname]] ;;
           match err' with
           | Some e =>
               ret (Some (fmt.Sprintf "failed to delete node %s: %v" [hostname; e]))
           | None => ret None
           end
       end end
     else ret None) ;;
  match err with Some _ => ret err | None =>
  let lvsImage := Repo (RegConfig k) +:+ "/fanux/lvscare:latest" in
  let yaml := LvsStaticPodYaml E (getVIP k) masterIPs lvsImage in
  errgroup.forEach (GetNodeIPList k) (updateLvscareStaticPod yaml)
  end end end.

Definition deleteMasters (masters : list IP) : M error :=
  if Nat.eqb (length masters) 0 then ret None else
  errgroup.forEach masters (fun master =>
    logrus.Infof "Start to delete master %s" [master] ;;
    err <- deleteMaster master ;;
    (match err with
     | Some e => logrus.Errorf "failed to delete master %s: %v" [master; e]
     | None => logrus.Infof "Succeeded in deleting master %s" [master]
     end) ;;
    ret None).

End Kubernetes.

Local Close Scope go_scope.

(** ** Vocabulary of the statements *)

(** The three roles the command builder knows. *)
Definition supportedRoles : list CommandType := [InitMaster; JoinMaster; JoinNode].

(** The threshold of the version policy, 1.15.0. *)
Definition threshold : N * N * N := (1, 15, 0)%N.

(** The config-file family: the command refers to the rendered
    [kubeadm.yml] under the root file system of the cluster image. *)
Definition configFileCommand (k : Runtime) (name : CommandType) : string :=
  if String.eqb name InitMaster
  then "kubeadm init --config=" +:+ getRootfs k +:+ "/etc/kubeadm.yml --upload-certs"
  else "kubeadm join --config=" +:+ getRootfs k +:+ "/etc/kubeadm.yml".

(** The explicit-flag family of the versions before 1.15. *)
Definition explicitFlagCommand (k : Runtime) (name : CommandType) : string :=
  if String.eqb name InitMaster then
    "kubeadm init --config=" +:+ getRootfs k
    +:+ "/etc/kubeadm.yml --experimental-upload-certs"
  else if String.eqb name JoinMaster then
    "kubeadm join " +:+ GetMaster0IP k +:+ ":6443 --token " +:+ getJoinToken k
    +:+ " --discovery-token-ca-cert-hash " +:+ getTokenCaCertHash k
    +:+ " --experimental-control-plane --certificate-key " +:+ getCertificateKey k
  else
    "kubeadm join " +:+ getVIP k +:+ ":6443 --token " +:+ getJoinToken k
    +:+ " --discovery-token-ca-cert-hash " +:+ getTokenCaCertHash k.

(** The preflight relaxation that closes a command. *)
Definition preflightFlag (inContainer : bool) (name : CommandType) : string :=
  if inContainer then " --ignore-preflight-errors=all"
  else if String.eqb name InitMaster || String.eqb name JoinMaster
       then " --ignore-preflight-errors=SystemVerification"
       else "".

(** The line [Command] logs when the version cannot be compared. *)
Definition compareErrorLog (version : string) : list Event :=
  match (versionUtils.Compare version V1150).2 with
  | Some e => [EvLog ErrorLevel ("failed to compare Kubernetes version: " +:+ e)]
  | None => []
  end.

(** A script of the outside world: what it is asked, in order, and what it
    answers; [Noted] events are recorded between the calls without being
    answered. *)
Inductive Step :=
| Asked (e : Event) (reply : string * error)
| Noted (e : Event).

(** [answered E history script]: from [history] on, the oracle of [E]
    answers the calls of [script] as the script says. *)
Fixpoint answered (E : Env) (history : list Event) (script : list Step) : Prop :=
  match script with
  | [] => True
  | Asked e reply :: rest =>
      oracle E history e = reply /\ answered E (history ++ [e]) rest
  | Noted e :: rest => answered E (history ++ [e]) rest
  end.

(** The two calls of the credential fetch, and the log line between them. *)
Definition uploadCerts (k : Runtime) : Event :=
  EvCmdToString (GetMaster0IP k)
    (fmt.Sprintf "kubeadm init phase upload-certs --upload-certs -v %d"
       [strconv.Itoa (Vlog k)])
    strings.crlf.

Definition uploadCertsLog (output : string) : Event :=
  EvLog DebugLevel (fmt.Sprintf "[globals]decodeCertCmd: %s" [output]).

Definition tokenCreate (k : Runtime) : Event :=
  EvCmd (GetMaster0IP k)
    (fmt.Sprintf "kubeadm token create --print-join-command -v %d"
       [strconv.Itoa (Vlog k)]).

(** The runtime after [k.CertificateKey = key]. *)
Definition holding (k : Runtime) (key : string) : Runtime :=
  withConfig k (withCertificateKey (Config k) key).

(** The segments the marker text cuts the upload-certs output into. *)
Definition certificateKeySegments (output : string) : list string :=
  strings.Split output "Using certificate key:".

(** Runs seen through their traces: [traces Q m] says that every run of
    [m] extends the trace by events that satisfy [Q]; [emits P m] that each
    event it adds satisfies [P]. *)
Definition traces {A} (Q : list Event -> Prop) (m : M A) : Prop :=
  forall w, exists l, trace (world (m w)) = trace w ++ l /\ Q l.

Definition emits {A} (P : Event -> Prop) (m : M A) : Prop :=
  traces (Forall P) m.

(** An event that runs [kubectl delete node] on some host. *)
Definition issuesDeleteNode (e : Event) : bool :=
  match e with
  | EvCmdAsync _ cmds =>
      existsb (fun c => strings.HasPrefix c "kubectl delete node") cmds
  | EvCmd _ cmd | EvCmdToString _ cmd _ =>
      strings.HasPrefix cmd "kubectl delete node"
  | _ => false
  end.

(** A command that re-adds an entry to [/etc/hosts] ([RemoteAddEtcHosts]). *)
Definition isAddEtcHosts (cmd : string) : bool :=
  strings.HasPrefix cmd "cat /etc/hosts |grep".

(** Whether [deleteMaster] takes the master for the machine it runs on. *)
Definition localHost (E : Env) (master : IP) : bool :=
  match GetLocalHostAddresses E with
  | (address, None) => IsLocalIP E master address
  | (_, Some _) => false
  end.

Fixpoint lastChar (s : string) : option ascii :=
  match s with
  | EmptyString => None
  | String c s' => match lastChar s' with Some d => Some d | None => Some c end
  end.

(** The calls of the credential fetch. *)
Definition isUploadCerts (e : Event) : bool :=
  match e with
  | EvCmdToString _ cmd _ => strings.HasPrefix cmd "kubeadm init phase upload-certs"
  | _ => false
  end.

Definition isTokenCreate (e : Event) : bool :=
  match e with
  | EvCmd _ cmd => strings.HasPrefix cmd "kubeadm token create"
  | _ => false
  end.

(** How often a run fetches the join credentials: every execution of
    [GetJoinTokenHashAndKey] starts with one upload-certs call. *)
Definition fetches (l : list Event) : nat := length (List.filter isUploadCerts l).

Definition tokenCreations (l : list Event) : nat :=
  length (List.filter isTokenCreate l).

(** Events that are no command with a result, which is all the stages of
    the join after the credential fetch emit. *)
Definition quiet (e : Event) : Prop :=
  match e with
  | EvCmdToString _ _ _ | EvCmd _ _ => False
  | _ => True
  end.

(** Accesses of the shared join configuration, and network I/O. *)
Definition isConfigAccess (e : Event) : bool :=
  match e with
  | EvSetAPIServerEndpoint _ | EvSetJoinAdvertiseAddress _
  | EvSetCgroupDriver _ | EvMarshalJoinConfig => true
  | _ => false
  end.

Definition isNetwork (e : Event) : bool :=
  match e with
  | EvCmdAsync _ _ | EvCmd _ _ | EvCmdToString _ _ _ | EvCopy _ _ _
  | EvWaitSSHReady _ _ | EvCopyStaticFiles _ | EvGetRemoteHostName _
  | EvGetCgroupDriverFromShell _ => true
  | _ => false
  end.

Definition isCgroupProbe (e : Event) : bool :=
  match e with EvGetCgroupDriverFromShell _ => true | _ => false end.

(** [lockScan allowed held l] walks a trace with the state of the mutex:
    [Some held'] when every lock operation is legal and every other event
    is [allowed] in the lock state it happens in, [None] otherwise. *)
Fixpoint lockScan (allowed : bool -> Event -> bool) (held : bool) (l : list Event)
  : option bool :=
  match l with
  | [] => Some held
  | EvLock :: l' => if held then None else lockScan allowed true l'
  | EvUnlock :: l' => if held then lockScan allowed false l' else None
  | EvNewMutex :: l' => if held then None else lockScan allowed false l'
  | e :: l' => if allowed held e then lockScan allowed held l' else None
  end.

(** The discipline the design document asks for: the configuration is
    touched only under the lock, and nothing goes over the network while
    the lock is held. *)
Definition claimedDiscipline (held : bool) (e : Event) : bool :=
  if held then negb (isNetwork e) else negb (isConfigAccess e).

(** The discipline the code keeps: as above, except that the probe of the
    cgroup driver runs under the lock. *)
Definition actualDiscipline (held : bool) (e : Event) : bool :=
  if held then negb (isNetwork e) || isCgroupProbe e else negb (isConfigAccess e).

Definition disciplined (l : list Event) : Prop :=
  lockScan actualDiscipline false l = Some false.

(** ** A concrete cluster, for evaluating the model *)

Module Sample.

Definition cluster0 : Cluster := {|
  Rootfs := "/var/lib/sealer/data/my-cluster/rootfs";
  BasePath := "/var/lib/sealer/data/my-cluster";
  PKIPath := "/var/lib/sealer/data/my-cluster/pki";
  CertsDir := "/var/lib/sealer/data/my-cluster/certs";
  Master0IP := "192.168.0.2";
  MasterIPList := ["192.168.0.2"; "192.168.0.3"; "192.168.0.4"];
  NodeIPList := ["192.168.0.5"; "192.168.0.6"];
  VIP := "10.103.97.2";
  APIServerDomain := "apiserver.cluster.local";
  KubeVersion := "v1.19.8";
  CertSANS := [];
  SvcCIDR := "10.96.0.0/22"
|}.

Definition registry0 : RegistryConfig := {|
  Domain := "sea.hub"; RegIP := "192.168.0.2"; Port := "5000";
  Username := ""; Password := ""; Repo := "sea.hub:5000"
|}.

Definition config0 : KubeadmConfig := {|
  JoinToken := "abcdef.0123456789abcdef";
  TokenCaCertHash := "sha256:1f2e";
  CertificateKey := "8376c70a";
  APIServerEndpoint := "";
  JoinAdvertiseAddress := "";
  CgroupDriver := ""
|}.

Definition k0 : Runtime :=
  {| cluster := cluster0; Vlog := 0; RegConfig := registry0; Config := config0 |}.

(** The sample of the comment in [GetJoinTokenHashAndKey], as
    [CmdToString] hands it over. *)
Definition uploadCertsOutput : string :=
  "[upload-certs] Storing the certificates in Secret" +:+ strings.crlf
  +:+ "[upload-certs] Using certificate key:" +:+ strings.crlf
  +:+ "8376c70aaaf285b764b3c1a588740728aff493d7c2239684e84a7367c6a437cf"
  +:+ strings.lf.

(** An outside world in which every call succeeds. *)
Definition allFine (history : list Event) (e : Event) : string * error :=
  match e with
  | EvGetHostSSHClient _ => ("root", None)
  | EvCmdToString _ cmd _ =>
      if strings.HasPrefix cmd "kubeadm init phase upload-certs"
      then (uploadCertsOutput, None)
      else if strings.HasPrefix cmd "kubectl get nodes" then ("node-a,node-b", None)
      else ("NODE-B", None)
  | EvGetCgroupDriverFromShell _ => ("systemd", None)
  | EvGetRemoteHostName host => ("host-" +:+ host, None)
  | _ => ("", None)
  end.

Definition env (inContainer : bool) (localAddresses : list string * error)
           (answers : list Event -> Event -> string * error) : Env := {|
  DockerCertDir := "/etc/docker/certs.d";
  SeaHub := "sea.hub";
  ROOT := "root";
  KubernetesConfigDir := "/etc/kubernetes";
  KubeDefaultCertPath := "/etc/kubernetes/pki";
  IsInContainer := inContainer;
  GetLocalHostAddresses := localAddresses;
  IsLocalIP := fun ip addrs => bool_decide (ip ∈ addrs);
  RemoteCerts := fun _ _ _ _ _ => "seautil certs";
  GenLoginCommand := fun _ => "docker login";
  addRegistryDomainToHosts := fun _ => "echo registry";
  MarshalWithDelimiter := fun c =>
    ("advertiseAddress: " +:+ JoinAdvertiseAddress c, None);
  LvsStaticPodYaml := fun vip masters image => "lvscare " +:+ strings.Join masters ",";
  mergedKubeadmConfig := fun _ k => k;
  decodedMaster0Output := fun _ k => k;
  oracle := answers
|}.

Definition env0 : Env := env false ([], None) allFine.

Definition w0 : World := {| rt := k0; trace := [] |}.

(** The same world with one kind of call failing. *)
Definition failing (bad : Event -> bool) (history : list Event) (e : Event)
  : string * error :=
  if bad e then ("", Some "connection refused") else allFine history e.

Definition isClientOf (host : IP) (e : Event) : bool :=
  match e with EvGetHostSSHClient h => String.eqb h host | _ => false end.

Definition isCmdAsyncOn (host : IP) (e : Event) : bool :=
  match e with EvCmdAsync h _ => String.eqb h host | _ => false end.

Definition isWaitSSHReady (e : Event) : bool :=
  match e with EvWaitSSHReady _ _ => true | _ => false end.

(** The same world with the removed host known to the cluster under no
    name. *)
Definition strangeHostName (history : list Event) (e : Event) : string * error :=
  match e with
  | EvCmdToString _ cmd _ =>
      if String.eqb cmd "hostname" then ("node-c", None) else allFine history e
  | _ => allFine history e
  end.

(** A cluster with a single master. *)
Definition cluster1 : Cluster := {|
  Rootfs := Rootfs cluster0; BasePath := BasePath cluster0;
  PKIPath := PKIPath cluster0; CertsDir := CertsDir cluster0;
  Master0IP := "192.168.0.2"; MasterIPList := ["192.168.0.2"];
  NodeIPList := NodeIPList cluster0; VIP := VIP cluster0;
  APIServerDomain := APIServerDomain cluster0; KubeVersion := KubeVersion cluster0;
  CertSANS := CertSANS cluster0; SvcCIDR := SvcCIDR cluster0
|}.

Definition k1 : Runtime :=
  {| cluster := cluster1; Vlog := 0; RegConfig := registry0; Config := config0 |}.

Definition w1 : World := {| rt := k1; trace := [] |}.

End Sample.

Import Sample.

(** * Properties *)

(** ** Strings *)

Lemma append_nil_r (s : string) : s +:+ "" = s.
Proof. induction s as [|c s IH]; simpl; [reflexivity | now rewrite IH]. Qed.

Lemma append_assoc (a b c : string) : (a +:+ b) +:+ c = a +:+ b +:+ c.
Proof. induction a as [|x a IH]; simpl; [reflexivity | now rewrite IH]. Qed.

Lemma prefix_lf (s : string) :
  String.prefix strings.lf s = true ->
  exists s', s = String strings.LF s'.
Proof.
  unfold strings.lf.
  destruct s as [|c s']; cbn [String.prefix]; [discriminate |].
  destruct (ascii_dec strings.LF c) as [<- | _]; [eauto | discriminate].
Qed.

Lemma Replace_lf_hasChar (s : string) :
  strings.hasChar strings.LF (strings.Replace s strings.lf "") = false.
Proof.
  unfold strings.Replace.
  induction s as [|c s IH]; [reflexivity |].
  cbn [strings.replace_go].
  destruct (String.prefix strings.lf (String c s)) eqn:Hp.
  - exact IH.
  - cbn [strings.hasChar].
    destruct (Ascii.eqb_spec strings.LF c) as [<- | Hne]; [| exact IH].
    unfold strings.lf in Hp. cbn [String.prefix] in Hp.
    destruct (ascii_dec strings.LF strings.LF); [| contradiction].
    destruct s; discriminate Hp.
Qed.

Lemma hasChar_Contains_lf (s : string) :
  strings.hasChar strings.LF s = false -> strings.Contains s strings.lf = false.
Proof.
  induction s as [|c s IH]; [reflexivity |].
  cbn [strings.hasChar strings.Contains].
  destruct (Ascii.eqb_spec strings.LF c) as [<- | Hne]; [discriminate |].
  intros H.
  destruct (String.prefix strings.lf (String c s)) eqn:Hp.
  - apply prefix_lf in Hp as [s' Hs]. congruence.
  - apply IH, H.
Qed.

Lemma hasChar_Contains_crlf (s : string) :
  strings.hasChar strings.LF s = false -> strings.Contains s strings.crlf = false.
Proof.
  induction s as [|c s IH]; [reflexivity |].
  cbn [strings.hasChar strings.Contains].
  destruct (Ascii.eqb_spec strings.LF c) as [<- | Hne]; [discriminate |].
  intros H.
  destruct (String.prefix strings.crlf (String c s)) eqn:Hp; [| apply IH, H].
  unfold strings.crlf in Hp. cbn [String.prefix] in Hp.
  destruct (ascii_dec strings.CR c); [| discriminate].
  apply prefix_lf in Hp as [s' ->].
  cbn [strings.hasChar] in H. rewrite Ascii.eqb_refl in H. discriminate H.
Qed.

Lemma lastChar_append (a b : string) :
  lastChar (a +:+ b) =
    match lastChar b with Some d => Some d | None => lastChar a end.
Proof.
  induction a as [|c a IH]; simpl.
  - destruct (lastChar b); reflexivity.
  - rewrite IH. destruct (lastChar b); reflexivity.
Qed.

Lemma Sprintf_lastChar (n : nat) :
  forall (f : string) (args : list string),
    (String.length f <= n)%nat ->
    lastChar (fmt.Sprintf (f +:+ "s*") args) = Some "*"%char.
Proof.
  induction n as [|n IH]; intros f args Hlen.
  - destruct f; [reflexivity | simpl in Hlen; lia].
  - destruct f as [|c rest]; [reflexivity |].
    simpl in Hlen. cbn [String.append fmt.Sprintf].
    destruct (Ascii.eqb c "%").
    + destruct rest as [|v rest'].
      * destruct args as [|a args']; simpl;
          repeat rewrite lastChar_append; reflexivity.
      * simpl in Hlen. cbn [String.append].
        destruct (Ascii.eqb v "%").
        -- cbn [lastChar]. rewrite IH by lia. reflexivity.
        -- destruct args as [|a args'];
             cbn [lastChar]; repeat rewrite lastChar_append;
             rewrite IH by lia; reflexivity.
    + cbn [lastChar]. rewrite IH by lia. reflexivity.
Qed.

(** ** Runs and traces *)

Lemma emitted_app {A} (m : M A) (w : World) (l : list Event) :
  trace (world (m w)) = trace w ++ l -> emitted m w = l.
Proof. unfold emitted. intros ->. apply drop_app_length. Qed.

Section Traces.
Context (Q : list Event -> Prop).
Hypothesis Q_nil : Q [].
Hypothesis Q_app : forall l1 l2, Q l1 -> Q l2 -> Q (l1 ++ l2).

Lemma traces_ret {A} (a : A) : traces Q (ret a).
Proof. intros w. exists []. rewrite app_nil_r. auto. Qed.

Lemma traces_this : traces Q this.
Proof. intros w. exists []. rewrite app_nil_r. auto. Qed.

Lemma traces_assign (k : Runtime) : traces Q (assign k).
Proof. intros w. exists []. cbn. rewrite app_nil_r. auto. Qed.

Lemma traces_panic {A} (msg : string) : traces Q (@panic A msg).
Proof. intros w. exists []. cbn. rewrite app_nil_r. auto. Qed.

Lemma traces_note (e : Event) : Q [e] -> traces Q (note e).
Proof. intros H w. exists [e]. auto. Qed.

Lemma traces_call (E : Env) (e : Event) : Q [e] -> traces Q (call E e).
Proof. intros H w. exists [e]. auto. Qed.

Lemma traces_bind {A B} (m : M A) (f : A -> M B) :
  traces Q m -> (forall a, traces Q (f a)) -> traces Q (bind m f).
Proof.
  intros Hm Hf w. unfold bind.
  destruct (Hm w) as [l [Hl HQ]].
  destruct (m w) as [a w' | msg w']; cbn in Hl.
  - destruct (Hf a w') as [l' [Hl' HQ']].
    exists (l ++ l'). rewrite Hl', Hl, app_assoc. auto.
  - exists l. auto.
Qed.

Lemma traces_forEach {A} (l : list A) (worker : A -> M error) :
  (forall x, traces Q (worker x)) -> traces Q (errgroup.forEach l worker).
Proof.
  intros Hw. induction l as [|x l IH]; cbn [errgroup.forEach].
  - apply traces_ret.
  - apply traces_bind; [apply Hw | intros err].
    apply traces_bind; [apply IH | intros rest]. apply traces_ret.
Qed.
End Traces.

Lemma traces_emitted {A} (Q : list Event -> Prop) (m : M A) (w : World) :
  traces Q m -> Q (emitted m w).
Proof.
  intros H. destruct (H w) as [l [Hl HQ]].
  now rewrite (emitted_app m w l Hl).
Qed.

Lemma traces_impl {A} (Q Q' : list Event -> Prop) (m : M A) :
  (forall l, Q l -> Q' l) -> traces Q m -> traces Q' m.
Proof. intros HQ H w. destruct (H w) as [l [Hl Hq]]. eauto. Qed.

Section Emits.
Context (P : Event -> Prop).

Lemma emits_ret {A} (a : A) : emits P (ret a).
Proof. apply traces_ret. constructor. Qed.
Lemma emits_this : emits P this.
Proof. apply traces_this. constructor. Qed.
Lemma emits_assign k : emits P (assign k).
Proof. apply traces_assign. constructor. Qed.
Lemma emits_panic {A} msg : emits P (@panic A msg).
Proof. apply traces_panic. constructor. Qed.
Lemma emits_note e : P e -> emits P (note e).
Proof. intros H. apply traces_note. auto. Qed.
Lemma emits_call E e : P e -> emits P (call E e).
Proof. intros H. apply traces_call. auto. Qed.
Lemma emits_bind {A B} (m : M A) (f : A -> M B) :
  emits P m -> (forall a, emits P (f a)) -> emits P (bind m f).
Proof.
  unfold emits. intros Hm Hf.
  apply traces_bind; auto using Forall_nil_2.
  intros l1 l2 H1 H2. apply Forall_app. auto.
Qed.
Lemma emits_forEach {A} (l : list A) (worker : A -> M error) :
  (forall x, emits P (worker x)) -> emits P (errgroup.forEach l worker).
Proof.
  unfold emits. intros Hw.
  apply traces_forEach; auto using Forall_nil_2.
  intros l1 l2 H1 H2. apply Forall_app. auto.
Qed.
End Emits.

(** One step of the proof that a term emits only events of a kind. *)
Ltac emits_step :=
  match goal with
  | |- emits _ (bind _ _) => apply emits_bind; [| intros ?]
  | |- emits _ (ret _) => apply emits_ret
  | |- emits _ this => apply emits_this
  | |- emits _ (assign _) => apply emits_assign
  | |- emits _ (panic _) => apply emits_panic
  | |- emits _ (note _) => apply emits_note
  | |- emits _ (call _ _) => apply emits_call
  | |- emits _ (errgroup.forEach _ _) => apply emits_forEach; intros ?
  | |- emits _ (match ?x with _ => _ end) => destruct x
  | |- emits _ _ =>
      progress unfold getHostSSHClient, ssh_CmdAsync, ssh_Cmd, ssh_Copy,
        CmdToString, MergeKubeadmConfig, WaitSSHReady, CopyStaticFiles,
        getRemoteHostName, getCgroupDriverFromShell, Lock, Unlock,
        setAPIServerEndpoint, setJoinAdvertiseAddress, setCgroupDriver,
        setCertificateKey, decodeMaster0Output,
        logrus.Debugf, logrus.Infof, logrus.Info, logrus.Errorf
  end.

Ltac emits_run := repeat emits_step.

(** Stepping through a run, one equation at a time. *)
Section Run.
Context (E : Env).

Lemma bind_ret {A B} (a : A) (f : A -> M B) (w : World) :
  bind (ret a) f w = f a w.
Proof. reflexivity. Qed.

Lemma bind_this {B} (f : Runtime -> M B) (w : World) :
  bind this f w = f (rt w) w.
Proof. reflexivity. Qed.

Lemma bind_note {B} (e : Event) (f : unit -> M B) (w : World) :
  bind (note e) f w = f tt (record w e).
Proof. reflexivity. Qed.

Lemma bind_call {B} (e : Event) (f : string * error -> M B) (w : World) :
  bind (call E e) f w = f (oracle E (trace w) e) (record w e).
Proof. reflexivity. Qed.

Lemma bind_assign {B} (k : Runtime) (f : unit -> M B) (w : World) :
  bind (assign k) f w = f tt {| rt := k; trace := trace w |}.
Proof. reflexivity. Qed.

Lemma bind_panic {A B} (msg : string) (f : A -> M B) (w : World) :
  bind (panic msg) f w = Panicked msg w.
Proof. reflexivity. Qed.

Lemma bind_bind {A B C} (m : M A) (f : A -> M B) (g : B -> M C) (w : World) :
  bind (bind m f) g w = bind m (fun a => bind (f a) g) w.
Proof. unfold bind. destruct (m w); reflexivity. Qed.
End Run.

Ltac mstep :=
  first
    [ rewrite bind_ret | rewrite bind_this | rewrite bind_note
    | rewrite bind_call | rewrite bind_assign | rewrite bind_panic
    | rewrite bind_bind
    | progress unfold getHostSSHClient, ssh_CmdAsync, ssh_Cmd, ssh_Copy,
        CmdToString, MergeKubeadmConfig, WaitSSHReady, CopyStaticFiles,
        getRemoteHostName, getCgroupDriverFromShell, Lock, Unlock,
        logrus.Debugf, logrus.Infof, logrus.Info, logrus.Errorf ];
  cbv beta iota.

Ltac msteps := repeat mstep.

(** Case analysis on the next answer of the outside world. *)
Ltac answer H :=
  match goal with
  | |- context [oracle ?E ?tr ?e] =>
      let o := fresh "out" in
      let e' := fresh "e" in
      destruct (oracle E tr e) as [o [e'|]] eqn:H; cbv beta iota
  end.

(** ** The command builder *)

Lemma geb_threshold (a b c : N) :
  versionUtils.geb (a, b, c) threshold = true <-> (1 < a \/ (a = 1 /\ 15 <= b))%N.
Proof.
  unfold versionUtils.geb, threshold.
  rewrite !orb_true_iff, !andb_true_iff, !orb_true_iff, !andb_true_iff,
    !N.ltb_lt, !N.eqb_eq, N.leb_le.
  lia.
Qed.

Section CommandFacts.

Context (E : Env).

Lemma Command_supported (w : World) (version : string) (name : CommandType) :
  name ∈ supportedRoles ->
  value (Command E version name w) =
    Some ((if (versionUtils.Compare version V1150).1
           then configFileCommand (rt w) name
           else explicitFlagCommand (rt w) name)
          +:+ vlogToStr (Vlog (rt w)) +:+ preflightFlag (IsInContainer E) name)
  /\ trace (world (Command E version name w)) = trace w ++ compareErrorLog version.
Proof.
  intros Hname.
  unfold supportedRoles in Hname.
  unfold Command, compareErrorLog, bind, this.
  destruct (versionUtils.Compare version V1150) as [cmp err].
  unfold preflightFlag, configFileCommand, explicitFlagCommand.
  assert (Hcases : name = InitMaster \/ name = JoinMaster \/ name = JoinNode)
    by (set_solver).
  clear Hname.
  destruct Hcases as [-> | [-> | ->]];
    destruct err as [e|], cmp, (IsInContainer E); simpl;
    simplify_map_eq; simpl;
    repeat rewrite append_nil_r; repeat rewrite append_assoc;
    repeat rewrite app_nil_r; simpl;
    repeat rewrite append_assoc; simpl; split; reflexivity.
Qed.

Lemma Command_unsupported (w : World) (version : string) (name : CommandType) :
  name ∉ supportedRoles ->
  value (Command E version name w) = Some ""
  /\ exists cmds : gmap string string,
       trace (world (Command E version name w)) =
         trace w ++ compareErrorLog version
           ++ [EvLog ErrorLevel ("failed to get kubeadm command: " +:+ fmt.Map cmds)].
Proof.
  intros Hname.
  unfold supportedRoles in Hname.
  assert (Hi : name <> InitMaster) by set_solver.
  assert (Hm : name <> JoinMaster) by set_solver.
  assert (Hn : name <> JoinNode) by set_solver.
  clear Hname.
  unfold Command, compareErrorLog, bind, this.
  destruct (versionUtils.Compare version V1150) as [cmp err].
  destruct err as [e|], cmp; simpl;
    repeat (rewrite lookup_insert_ne by congruence);
    rewrite lookup_singleton_ne by congruence; simpl;
    repeat rewrite append_nil_r; repeat rewrite app_nil_r;
    (split; [reflexivity | eexists; rewrite <- ?app_assoc; reflexivity]).
Qed.

Lemma Compare_parsed (version : string) (t : N * N * N) :
  versionUtils.parse version = Some t ->
  versionUtils.Compare version V1150 = (versionUtils.geb t threshold, None).
Proof.
  intros H. unfold versionUtils.Compare. rewrite H. reflexivity.
Qed.

Lemma Compare_unknown (version : string) :
  versionUtils.parse version = None ->
  versionUtils.Compare version V1150
  = (false, Some ("error version format " +:+ version +:+ " " +:+ V1150)).
Proof.
  intros H. unfold versionUtils.Compare. rewrite H. reflexivity.
Qed.

End CommandFacts.

(** C1.  For a version that reads as [major.minor.patch], [Command] renders
    the config-file family ([kubeadm init --config=.../etc/kubeadm.yml
    --upload-certs], [kubeadm join --config=.../etc/kubeadm.yml]) for each
    of the three roles when the version is at or above 1.15.0, and the
    explicit-flag family (master0 or the VIP, join token, CA-cert hash,
    certificate key) when it is below; 1.15.0 itself, written with or
    without the leading [v], takes the config-file family. *)
Theorem Command_selects_family_by_version
        (E : Env) (w : World) (version : string) (t : N * N * N)
        (name : CommandType) :
  name ∈ supportedRoles ->
  versionUtils.parse version = Some t ->
  (versionUtils.geb t threshold = true ->
   value (Command E version name w) =
     Some (configFileCommand (rt w) name
           +:+ vlogToStr (Vlog (rt w)) +:+ preflightFlag (IsInContainer E) name))
  /\ (versionUtils.geb t threshold = false ->
      value (Command E version name w) =
        Some (explicitFlagCommand (rt w) name
              +:+ vlogToStr (Vlog (rt w)) +:+ preflightFlag (IsInContainer E) name))
  /\ value (Command E "1.15.0" name w) =
       Some (configFileCommand (rt w) name
             +:+ vlogToStr (Vlog (rt w)) +:+ preflightFlag (IsInContainer E) name)
  /\ value (Command E V1150 name w) =
       Some (configFileCommand (rt w) name
             +:+ vlogToStr (Vlog (rt w)) +:+ preflightFlag (IsInContainer E) name).
Proof.
  intros Hname Hparse.
  pose proof (Command_supported E w version name Hname) as [Hv _].
  rewrite (Compare_parsed version t Hparse) in Hv. simpl in Hv.
  repeat split.
  - intros Hge. rewrite Hge in Hv. exact Hv.
  - intros Hlt. rewrite Hlt in Hv. exact Hv.
  - pose proof (Command_supported E w "1.15.0" name Hname) as [H _].
    rewrite (Compare_parsed "1.15.0" threshold eq_refl) in H. exact H.
  - pose proof (Command_supported E w V1150 name Hname) as [H _].
    rewrite (Compare_parsed V1150 threshold eq_refl) in H. exact H.
Qed.

Lemma Command_selects_family_by_version_witness :
  JoinMaster ∈ supportedRoles
  /\ versionUtils.parse "1.23.0" = Some (1, 23, 0)%N
  /\ versionUtils.geb (1, 23, 0)%N threshold = true
  /\ value (Command env0 "1.23.0" JoinMaster w0) =
       Some "kubeadm join --config=/var/lib/sealer/data/my-cluster/rootfs/etc/kubeadm.yml -v 0 --ignore-preflight-errors=SystemVerification".
Proof.
  assert (Hrole : JoinMaster ∈ supportedRoles) by (repeat constructor).
  split; [exact Hrole |].
  split; [reflexivity |].
  split; [reflexivity |].
  destruct (Command_selects_family_by_version
              env0 w0 "1.23.0" (1, 23, 0)%N JoinMaster Hrole eq_refl)
    as [Hupper _].
  exact (Hupper eq_refl).
Defined.

(** The two scenarios of the design document. *)
Example Command_1_14_9_JoinMaster :
  value (Command env0 "1.14.9" JoinMaster w0) =
    Some "kubeadm join 192.168.0.2:6443 --token abcdef.0123456789abcdef --discovery-token-ca-cert-hash sha256:1f2e --experimental-control-plane --certificate-key 8376c70a -v 0 --ignore-preflight-errors=SystemVerification".
Proof. reflexivity. Qed.

Example Command_1_23_0_JoinMaster :
  value (Command env0 "1.23.0" JoinMaster w0) =
    Some "kubeadm join --config=/var/lib/sealer/data/my-cluster/rootfs/etc/kubeadm.yml -v 0 --ignore-preflight-errors=SystemVerification".
Proof. reflexivity. Qed.

(** C7, as the code has it.  [Command] has no error result.  For a role
    other than the three it logs "failed to get kubeadm command" and
    returns the empty string, which [joinMasters] turns into its own error;
    for a version that cannot be read it logs the comparison failure and
    returns the command of the pre-1.15 family. *)
Theorem Command_unknown_role_or_version
        (E : Env) (w : World) (version : string) (name : CommandType) :
  (name ∉ supportedRoles ->
   value (Command E version name w) = Some ""
   /\ exists cmds : gmap string string,
        emitted (Command E version name) w =
          compareErrorLog version
            ++ [EvLog ErrorLevel ("failed to get kubeadm command: " +:+ fmt.Map cmds)])
  /\ (name ∈ supportedRoles ->
      versionUtils.parse version = None ->
      value (Command E version name w) =
        Some (explicitFlagCommand (rt w) name
              +:+ vlogToStr (Vlog (rt w)) +:+ preflightFlag (IsInContainer E) name)
      /\ exists reason,
           emitted (Command E version name) w =
             [EvLog ErrorLevel ("failed to compare Kubernetes version: " +:+ reason)]).
Proof.
  split.
  - intros Hname.
    destruct (Command_unsupported E w version name Hname) as [Hv [cmds Ht]].
    split; [exact Hv |].
    exists cmds. apply emitted_app. exact Ht.
  - intros Hname Hparse.
    destruct (Command_supported E w version name Hname) as [Hv Ht].
    unfold compareErrorLog in Ht.
    rewrite (Compare_unknown version Hparse) in Hv, Ht. simpl in Hv, Ht.
    split; [exact Hv |].
    eexists. apply emitted_app. exact Ht.
Qed.

Lemma Command_unknown_role_or_version_witness :
  (("upgrade" ∉ supportedRoles)
   /\ value (Command env0 "v1.20.0" "upgrade" w0) = Some "")
  /\ (JoinNode ∈ supportedRoles
      /\ versionUtils.parse "v1.15" = None
      /\ value (Command env0 "v1.15" JoinNode w0) =
           Some "kubeadm join 10.103.97.2:6443 --token abcdef.0123456789abcdef --discovery-token-ca-cert-hash sha256:1f2e -v 0").
Proof.
  assert (Hout : "upgrade" ∉ supportedRoles).
  { intros H. apply list_elem_of_In in H. simpl in H.
    destruct H as [H | [H | [H | H]]]; [discriminate H .. | exact H]. }
  assert (Hin : JoinNode ∈ supportedRoles) by (repeat constructor).
  destruct (Command_unknown_role_or_version env0 w0 "v1.20.0" "upgrade") as [H1 _].
  destruct (Command_unknown_role_or_version env0 w0 "v1.15" JoinNode) as [_ H2].
  split.
  - split; [exact Hout | exact (proj1 (H1 Hout))].
  - split; [exact Hin |]. split; [reflexivity |].
    exact (proj1 (H2 Hin eq_refl)).
Defined.

(** C7, as stated, fails: for the role "upgrade" the builder returns the
    empty string and logs a line that lists the known commands; no
    "unsupported role" error is returned or logged. *)
Lemma Command_unsupported_role_counterexample :
  value (Command env0 "v1.20.0" "upgrade" w0) = Some ""
  /\ emitted (Command env0 "v1.20.0" "upgrade") w0 =
       [EvLog ErrorLevel
          "failed to get kubeadm command: map[initMaster:kubeadm init --config=/var/lib/sealer/data/my-cluster/rootfs/etc/kubeadm.yml --upload-certs joinMaster:kubeadm join --config=/var/lib/sealer/data/my-cluster/rootfs/etc/kubeadm.yml joinNode:kubeadm join --config=/var/lib/sealer/data/my-cluster/rootfs/etc/kubeadm.yml]"]
  /\ ~ (exists msg,
          (value (Command env0 "v1.20.0" "upgrade" w0) = Some msg
           \/ EvLog ErrorLevel msg ∈ emitted (Command env0 "v1.20.0" "upgrade") w0)
          /\ strings.Contains msg "unsupported role" = true).
Proof.
  split; [reflexivity |].
  split; [vm_compute; reflexivity |].
  intros [msg [[Hv | Hl] Hc]].
  - vm_compute in Hv. injection Hv as <-. vm_compute in Hc. discriminate Hc.
  - vm_compute in Hl. apply list_elem_of_In in Hl. simpl in Hl.
    destruct Hl as [Hl | []]. injection Hl as <-.
    vm_compute in Hc. discriminate Hc.
Qed.

(** C8.  For each of the three roles and any version, the command ends
    with the verbosity flag [ -v <Vlog>] followed by
    [--ignore-preflight-errors=all] inside a container, by
    [--ignore-preflight-errors=SystemVerification] outside a container for
    [InitMaster] and [JoinMaster], and by nothing for [JoinNode] outside a
    container. *)
Theorem Command_verbosity_and_preflight
        (E : Env) (w : World) (version : string) (name : CommandType) :
  name ∈ supportedRoles ->
  exists body,
    (body = configFileCommand (rt w) name \/ body = explicitFlagCommand (rt w) name)
    /\ (IsInContainer E = true ->
        value (Command E version name w) =
          Some (body +:+ " -v " +:+ strconv.Itoa (Vlog (rt w))
                +:+ " --ignore-preflight-errors=all"))
    /\ (IsInContainer E = false -> name = InitMaster \/ name = JoinMaster ->
        value (Command E version name w) =
          Some (body +:+ " -v " +:+ strconv.Itoa (Vlog (rt w))
                +:+ " --ignore-preflight-errors=SystemVerification"))
    /\ (IsInContainer E = false -> name = JoinNode ->
        value (Command E version name w) =
          Some (body +:+ " -v " +:+ strconv.Itoa (Vlog (rt w)))).
Proof.
  intros Hname.
  destruct (Command_supported E w version name Hname) as [Hv _].
  unfold vlogToStr, preflightFlag in Hv.
  exists (if (versionUtils.Compare version V1150).1
          then configFileCommand (rt w) name
          else explicitFlagCommand (rt w) name).
  split; [destruct ((versionUtils.Compare version V1150).1); auto |].
  split; [| split].
  - intros Hc. rewrite Hc in Hv. exact Hv.
  - intros Hc [-> | ->]; rewrite Hc in Hv; simpl in Hv; exact Hv.
  - intros Hc ->. rewrite Hc in Hv. simpl in Hv.
    rewrite append_nil_r in Hv. exact Hv.
Qed.

Lemma Command_verbosity_and_preflight_witness :
  InitMaster ∈ supportedRoles
  /\ exists body,
       value (Command env0 "v1.19.8" InitMaster w0) =
         Some (body +:+ " -v 0 --ignore-preflight-errors=SystemVerification").
Proof.
  assert (Hin : InitMaster ∈ supportedRoles) by (repeat constructor).
  split; [exact Hin |].
  destruct (Command_verbosity_and_preflight env0 w0 "v1.19.8" InitMaster Hin)
    as [body [_ [_ [H _]]]].
  exists body. exact (H eq_refl (or_introl eq_refl)).
Defined.

(* From here on formatted text stays folded. *)
#[local] Arguments fmt.Sprintf : simpl never.
#[local] Arguments fmt.Strings : simpl never.
#[local] Arguments fmt.Map : simpl never.
#[local] Arguments strings.Split : simpl never.
#[local] Arguments strings.Replace : simpl never.
#[local] Arguments strings.TrimSpace : simpl never.
#[local] Arguments strings.ToLower : simpl never.
#[local] Arguments strconv.Itoa : simpl never.

(** Running a monadic term: unfold the plumbing, keep the texts. *)
Ltac mrun :=
  cbv beta iota zeta delta
      [bind ret this assign note panic call
       getHostSSHClient ssh_CmdAsync ssh_Cmd ssh_Copy CmdToString
       MergeKubeadmConfig WaitSSHReady CopyStaticFiles getRemoteHostName
       getCgroupDriverFromShell Lock Unlock setAPIServerEndpoint
       setJoinAdvertiseAddress setCgroupDriver setCertificateKey
       decodeMaster0Output logrus.Debugf logrus.Infof logrus.Info logrus.Errorf
       negb];
  cbn [rt trace record value world].

Ltac ask H :=
  match goal with
  | |- context [oracle ?E ?tr ?e] =>
      let o := fresh "out" in
      let e' := fresh "e" in
      destruct (oracle E tr e) as [o [e'|]] eqn:H; mrun
  end.

(** ** The credential fetch *)

(** C2.  [GetJoinTokenHashAndKey] always returns, and it returns an error
    exactly when the upload-certs call fails, or its output is not cut into
    two segments by "Using certificate key:", or one of the calls that
    follow (the SSH client of master0, the token creation) fails.  When the
    output is cut into exactly two segments, the certificate key the
    function stores is the second segment with every CR LF and every LF
    taken out: it contains no line feed, and it is in the runtime the
    function leaves behind (handed to [decodeMaster0Output] when the token
    was created). *)
Theorem GetJoinTokenHashAndKey_error_iff (E : Env) (w : World) :
  let k := rt w in
  let run := GetJoinTokenHashAndKey E w in
  exists result : error,
    value run = Some result
    /\ (result <> None <->
        (exists out e, answered E (trace w) [Asked (uploadCerts k) (out, Some e)])
        \/ (exists output,
              answered E (trace w) [Asked (uploadCerts k) (output, None)]
              /\ (length (certificateKeySegments output) <> 2%nat
                  \/ (exists out e,
                        answered E (trace w)
                          [Asked (uploadCerts k) (output, None);
                           Noted (uploadCertsLog output);
                           Asked (EvGetHostSSHClient (GetMaster0IP k)) (out, Some e)])
                  \/ (exists user out e,
                        answered E (trace w)
                          [Asked (uploadCerts k) (output, None);
                           Noted (uploadCertsLog output);
                           Asked (EvGetHostSSHClient (GetMaster0IP k)) (user, None);
                           Asked (tokenCreate k) (out, Some e)]))))
    /\ (forall output,
          answered E (trace w) [Asked (uploadCerts k) (output, None)] ->
          length (certificateKeySegments output) = 2%nat ->
          let key :=
            strings.Replace
              (strings.Replace (nth 1 (certificateKeySegments output) "")
                 strings.crlf "")
              strings.lf "" in
          strings.hasChar strings.LF key = false
          /\ strings.Contains key strings.lf = false
          /\ strings.Contains key strings.crlf = false
          /\ (rt (world run) = holding k key
              \/ exists out,
                   rt (world run) = decodedMaster0Output E out (holding k key))).
Proof.
  intros k run. subst run k.
  unfold GetJoinTokenHashAndKey, uploadCerts, tokenCreate, uploadCertsLog,
    certificateKeySegments.
  mrun.
  ask Hup.
  { (* the upload-certs call fails *)
    exists (Some e). split; [reflexivity |]. split.
    - split; [intros _; left; exists out, e; cbn; auto | discriminate].
    - intros output' [Hup' _]. congruence. }
  set (segs := strings.Split out "Using certificate key:").
  set (key := strings.Replace (strings.Replace (nth 1 segs "") strings.crlf "")
                strings.lf "").
  assert (Hkey : forall r output',
             r = holding (rt w) key
             \/ (exists out', r = decodedMaster0Output E out' (holding (rt w) key)) ->
             answered E (trace w) [Asked (uploadCerts (rt w)) (output', None)] ->
             let key' :=
               strings.Replace
                 (strings.Replace
                    (nth 1 (strings.Split output' "Using certificate key:") "")
                    strings.crlf "")
                 strings.lf "" in
             strings.hasChar strings.LF key' = false
             /\ strings.Contains key' strings.lf = false
             /\ strings.Contains key' strings.crlf = false
             /\ (r = holding (rt w) key'
                 \/ exists out',
                      r = decodedMaster0Output E out' (holding (rt w) key'))).
  { intros r output' Hr [Hup' _] key'. subst key'. unfold uploadCerts in Hup'.
    assert (output' = out) by congruence. subst output'.
    fold segs. fold key.
    pose proof (Replace_lf_hasChar
                  (strings.Replace (nth 1 segs "") strings.crlf "")) as Hno.
    fold key in Hno.
    repeat split;
      [exact Hno | apply hasChar_Contains_lf, Hno
       | apply hasChar_Contains_crlf, Hno | exact Hr]. }
  destruct (Nat.eqb_spec (length segs) 2) as [Hlen | Hlen]; mrun.
  2:{ (* not two segments *)
    eexists. split; [reflexivity |]. split.
    - split; [| discriminate]. intros _. right. exists out.
      split; [split; [exact Hup | exact I] | left; exact Hlen].
    - intros output' [Hup' _] Hlen'.
      assert (output' = out) by congruence. subst output'. contradiction. }
  ask Hcl.
  { (* no SSH client for master0 *)
    eexists. split; [reflexivity |]. split.
    - split; [| discriminate]. intros _. right. exists out.
      split; [split; [exact Hup | exact I] |].
      right; left. exists out0, e. cbn. auto.
    - intros output' Hans _. apply (Hkey _ output'); [left; reflexivity | exact Hans]. }
  ask Htc.
  { (* the token creation fails *)
    eexists. split; [reflexivity |]. split.
    - split; [| discriminate]. intros _. right. exists out.
      split; [split; [exact Hup | exact I] |].
      right; right. exists out0, out1, e. cbn. auto.
    - intros output' Hans _. apply (Hkey _ output'); [left; reflexivity | exact Hans]. }
  (* everything succeeds *)
  exists None. split; [reflexivity |]. split.
  - split; [congruence |].
    intros [[out' [e' [Hup' _]]] | [output' [[Hup' _] Hcases]]]; [congruence |].
    assert (output' = out) by congruence. subst output'.
    destruct Hcases as [Hl | [[out' [e' H]] | [user' [out' [e' H]]]]].
    + contradiction.
    + cbn in H. destruct H as [_ [H _]]. congruence.
    + cbn in H. destruct H as [_ [_ [H _]]]. congruence.
  - intros output' Hans _.
    apply (Hkey _ output'); [right; exists out1; reflexivity | exact Hans].
Qed.

Lemma GetJoinTokenHashAndKey_error_iff_witness :
  answered env0 (trace w0) [Asked (uploadCerts k0) (uploadCertsOutput, None)]
  /\ length (certificateKeySegments uploadCertsOutput) = 2%nat
  /\ getCertificateKey (rt (world (GetJoinTokenHashAndKey env0 w0)))
     = "8376c70aaaf285b764b3c1a588740728aff493d7c2239684e84a7367c6a437cf"
  /\ strings.hasChar strings.LF
       (getCertificateKey (rt (world (GetJoinTokenHashAndKey env0 w0)))) = false.
Proof.
  assert (Hans : answered env0 (trace w0)
                   [Asked (uploadCerts k0) (uploadCertsOutput, None)])
    by (split; [reflexivity | exact I]).
  assert (Hlen : length (certificateKeySegments uploadCertsOutput) = 2%nat)
    by reflexivity.
  destruct (GetJoinTokenHashAndKey_error_iff env0 w0) as [result [_ [_ Hkey]]].
  destruct (Hkey uploadCertsOutput Hans Hlen) as [Hno _].
  split; [exact Hans |]. split; [exact Hlen |].
  split; [reflexivity | exact Hno].
Defined.

(** ** Removing a master *)

Section DeleteFacts.
Context (E : Env).

Lemma updateLvscareStaticPod_emits (P : Event -> Prop) (yaml : string) (node : IP) :
  (forall h, P (EvGetHostSSHClient h)) ->
  (forall lv msg, P (EvLog lv msg)) ->
  P (EvCmdAsync node [RemoveLvscareStaticPod; fmt.Sprintf CreateLvscareStaticPod [yaml]]) ->
  emits P (updateLvscareStaticPod E yaml node).
Proof.
  intros Hc Hl Ha. unfold updateLvscareStaticPod. emits_run; auto.
Qed.

Lemma RemoteRemoveRegistryCerts_ne (d : string) :
  fmt.Sprintf (RemoteRemoveRegistryCerts E) [d] <> RemoveKubeConfig.
Proof.
  intros H. apply (f_equal lastChar) in H.
  unfold RemoteRemoveRegistryCerts in H.
  replace ("rm -rf " +:+ DockerCertDir E +:+ "/%s*")
    with (("rm -rf " +:+ DockerCertDir E +:+ "/%") +:+ "s*") in H
    by (now rewrite !append_assoc).
  rewrite (Sprintf_lastChar _ _ _ (le_n _)) in H. discriminate H.
Qed.

Lemma remoteCleanCmd_cases (k : Runtime) (master : IP) :
  remoteCleanCmd E k master =
    [fmt.Sprintf RemoteCleanMasterOrNode [vlogToStr (Vlog k)];
     fmt.Sprintf RemoteRemoveAPIServerEtcHost [Domain (RegConfig k)];
     fmt.Sprintf RemoteRemoveAPIServerEtcHost [SeaHub E];
     fmt.Sprintf (RemoteRemoveRegistryCerts E) [Domain (RegConfig k)];
     fmt.Sprintf (RemoteRemoveRegistryCerts E) [SeaHub E];
     fmt.Sprintf RemoteRemoveAPIServerEtcHost [getAPIServerDomain k]]
    ++ [if localHost E master
        then fmt.Sprintf RemoteAddEtcHosts
               [getAPIServerHost (GetMaster0IP k) (getAPIServerDomain k);
                getAPIServerHost (GetMaster0IP k) (getAPIServerDomain k)]
        else RemoveKubeConfig].
Proof.
  unfold remoteCleanCmd, localHost.
  destruct (GetLocalHostAddresses E) as [address [e|]]; [reflexivity |].
  destruct (IsLocalIP E master address); reflexivity.
Qed.

Lemma remoteCleanCmd_no_delete_node (k : Runtime) (master : IP) :
  existsb (fun c => strings.HasPrefix c "kubectl delete node")
          (remoteCleanCmd E k master) = false.
Proof.
  rewrite remoteCleanCmd_cases.
  destruct (localHost E master); vm_compute; reflexivity.
Qed.

End DeleteFacts.

Section DeleteTheorems.

Context (E : Env).

Lemma matchHostName_unmatched (hostName : string) (hosts : list string) :
  (forall h, h ∈ hosts -> strings.TrimSpace h <> "" ->
             strings.ToLower h <> strings.ToLower hostName) ->
  matchHostName hostName hosts = "".
Proof.
  induction hosts as [|h hosts IH]; intros Hno; cbn [matchHostName]; [reflexivity |].
  destruct (String.eqb_spec (strings.TrimSpace h) "") as [_ | Hne].
  - apply IH. intros h' Hin. apply Hno. now right.
  - destruct (String.eqb_spec (strings.ToLower h) (strings.ToLower hostName))
      as [Heq | _].
    + exfalso. apply (Hno h); [now left | exact Hne | exact Heq].
    + apply IH. intros h' Hin. apply Hno. now right.
Qed.

(** C4, as the code has it.  When no SSH client can be made for the
    master, or the clean-up bundle fails on it, [deleteMaster] returns
    that failure at once: the trace ends with the failed call, so the
    list of remaining masters is not computed, no node is deleted and no
    load-balancer manifest is refreshed. *)
Theorem deleteMaster_unreachable_is_fatal (w : World) (master : IP) :
  (forall out e,
      answered E (trace w) [Asked (EvGetHostSSHClient master) (out, Some e)] ->
      value (deleteMaster E master w)
      = Some (Some (fmt.Sprintf "failed to delete master: %v" [e]))
      /\ emitted (deleteMaster E master) w = [EvGetHostSSHClient master])
  /\ (forall user out e,
         answered E (trace w)
           [Asked (EvGetHostSSHClient master) (user, None);
            Asked (EvCmdAsync master (remoteCleanCmd E (rt w) master)) (out, Some e)] ->
         value (deleteMaster E master w) = Some (Some e)
         /\ emitted (deleteMaster E master) w
            = [EvGetHostSSHClient master;
               EvCmdAsync master (remoteCleanCmd E (rt w) master)]).
Proof.
  split.
  - intros out e [Hc _].
    unfold deleteMaster. msteps. rewrite Hc. cbv beta iota. msteps.
    split; [reflexivity |]. apply emitted_app.
    unfold deleteMaster. msteps. rewrite Hc. reflexivity.
  - intros user out e [Hc [Hclean _]].
    assert (Hrun : deleteMaster E master w =
                   Done (Some e)
                        (record (record w (EvGetHostSSHClient master))
                                (EvCmdAsync master (remoteCleanCmd E (rt w) master)))).
    { unfold deleteMaster. msteps. rewrite Hc. cbv beta iota. msteps.
      cbn [rt trace record]. rewrite Hclean. reflexivity. }
    split; [now rewrite Hrun |].
    apply emitted_app. rewrite Hrun. cbn. now rewrite <- app_assoc.
Qed.

(** C5.  When no master remains once the deleted one is taken out of the
    list, no event of [deleteMaster] runs [kubectl delete node], on any
    host and whatever the outside world answers. *)
Theorem deleteMaster_last_master_no_delete_node (w : World) (master : IP) :
  List.filter (fun ip => negb (IP_Equal ip master)) (GetMasterIPList (rt w)) = [] ->
  Forall (fun e => issuesDeleteNode e = false) (emitted (deleteMaster E master) w).
Proof.
  intros Hlast.
  set (P := fun e => issuesDeleteNode e = false).
  assert (Hclean : P (EvCmdAsync master (remoteCleanCmd E (rt w) master)))
    by apply remoteCleanCmd_no_delete_node.
  enough (exists l, trace (world (deleteMaster E master w)) = trace w ++ l
                    /\ Forall P l) as [l [Hl HP]]
      by (now rewrite (emitted_app _ _ _ Hl)).
  unfold deleteMaster. msteps.
  answer Hc; msteps.
  { exists [EvGetHostSSHClient master]. split; [reflexivity | now repeat constructor]. }
  cbn [rt trace record].
  answer Hcl; msteps.
  { eexists. split; [cbn; rewrite <- app_assoc; reflexivity |].
    repeat constructor. exact Hclean. }
  rewrite Hlast. cbn [length Nat.ltb Nat.leb]. msteps.
  match goal with
  | |- context [errgroup.forEach ?nodes (updateLvscareStaticPod E ?yaml) ?w2] =>
      destruct (emits_forEach P nodes (updateLvscareStaticPod E yaml)
                  (fun node => updateLvscareStaticPod_emits E P yaml node
                                 (fun _ => eq_refl) (fun _ _ => eq_refl) eq_refl) w2)
        as [l [Hl HP]]
  end.
  rewrite Hl. cbn [rt trace record].
  eexists. split; [rewrite <- !app_assoc; reflexivity |].
  repeat constructor; [exact Hclean | exact HP].
Qed.

(** C6.  When the master is the local execution host, the clean-up
    bundle contains the command that re-adds the API-server entry to
    [/etc/hosts] and does not contain [RemoveKubeConfig]; otherwise it
    contains [RemoveKubeConfig] and no command that adds to [/etc/hosts].
    The bundle is what [deleteMaster] runs on the master, right after
    making its SSH client. *)
Theorem remoteCleanCmd_local_or_remote (k : Runtime) (master : IP) :
  let apiServerHost := getAPIServerHost (GetMaster0IP k) (getAPIServerDomain k) in
  (localHost E master = true ->
   fmt.Sprintf RemoteAddEtcHosts [apiServerHost; apiServerHost]
     ∈ remoteCleanCmd E k master
   /\ RemoveKubeConfig ∉ remoteCleanCmd E k master)
  /\ (localHost E master = false ->
      RemoveKubeConfig ∈ remoteCleanCmd E k master
      /\ Forall (fun c => isAddEtcHosts c = false) (remoteCleanCmd E k master))
  /\ (forall w user,
         rt w = k ->
         answered E (trace w) [Asked (EvGetHostSSHClient master) (user, None)] ->
         emitted (deleteMaster E master) w !! 1%nat
         = Some (EvCmdAsync master (remoteCleanCmd E k master))).
Proof.
  intros apiServerHost. rewrite remoteCleanCmd_cases. fold apiServerHost.
  split; [| split].
  - intros ->. split.
    + apply elem_of_app. right. constructor.
    + intros Hin. apply list_elem_of_In in Hin. simpl in Hin.
      destruct Hin as [H | [H | [H | [H | [H | [H | [H | []]]]]]]];
        try (vm_compute in H; discriminate H).
      * exact (RemoteRemoveRegistryCerts_ne E _ H).
      * exact (RemoteRemoveRegistryCerts_ne E _ H).
  - intros ->. split.
    + apply elem_of_app. right. constructor.
    + repeat constructor.
  - intros w user <- [Hc _].
    rewrite <- remoteCleanCmd_cases.
    enough (exists l, trace (world (deleteMaster E master w)) =
                      trace w ++ [EvGetHostSSHClient master;
                                  EvCmdAsync master (remoteCleanCmd E (rt w) master)]
                              ++ l) as [l Hl]
        by (now rewrite (emitted_app _ _ _ Hl)).
    unfold deleteMaster. msteps. rewrite Hc. cbv beta iota. msteps.
    cbn [rt trace record].
    match goal with
    | |- context [bind ?m ?f ?w2] =>
        assert (Hrest : emits (fun _ => True) (bind m f))
    end.
    { unfold isHostName. emits_run; auto.
      apply updateLvscareStaticPod_emits; auto. }
    match goal with
    | |- context [bind ?m ?f ?w2] => destruct (Hrest w2) as [l [Hl _]]
    end.
    rewrite Hl. cbn [rt trace record]. exists l. now rewrite <- !app_assoc.
Qed.

(** C10.  When no node name of [kubectl get nodes] equals the output of
    [hostname] on the deleted host up to case, [isHostName] returns the
    empty string and no error, and [deleteMaster], other masters
    remaining, runs [kubectl delete node ] with an empty name on master0
    (the clean-up having succeeded and master0 having an SSH client). *)
Theorem deleteMaster_unmatched_hostname
        (w : World) (master : IP) (user out hostString hostName user0 : string) :
  let k := rt w in
  let master0 := GetMaster0IP k in
  let client := EvGetHostSSHClient master in
  let clean := EvCmdAsync master (remoteCleanCmd E k master) in
  let getNodes :=
    EvCmdToString master0 "kubectl get nodes | grep -v NAME  | awk '{print $1}'" "," in
  let hostname := EvCmdToString master "hostname" "" in
  List.filter (fun ip => negb (IP_Equal ip master)) (GetMasterIPList k) <> [] ->
  answered E (trace w)
    [Asked client (user, None);
     Asked clean (out, None);
     Asked getNodes (hostString, None);
     Asked hostname (hostName, None);
     Asked (EvGetHostSSHClient master0) (user0, None)] ->
  (forall h, h ∈ strings.Split hostString "," ->
             strings.TrimSpace h <> "" ->
             strings.ToLower h <> strings.ToLower hostName) ->
  value (isHostName E master0 master (record (record w client) clean))
  = Some ("", None)
  /\ EvCmdAsync master0 ["kubectl delete node "]
       ∈ emitted (deleteMaster E master) w.
Proof.
  intros k master0 client clean getNodes hostname Hremain
         [Hc [Hclean [Hnodes [Hhost [Hc0 _]]]]] Hno.
  pose proof (matchHostName_unmatched hostName _ Hno) as Hname.
  assert (Hcmd : fmt.Sprintf KubeDeleteNode [strings.TrimSpace ""]
                 = "kubectl delete node ") by reflexivity.
  split.
  - unfold isHostName. msteps. cbn [rt trace record].
    fold master0 getNodes. rewrite Hnodes. cbv beta iota. msteps.
    cbn [rt trace record]. fold hostname. rewrite Hhost. cbv beta iota.
    rewrite Hname. reflexivity.
  - enough (exists l l', trace (world (deleteMaster E master w)) =
                         trace w ++ l ++ [EvCmdAsync master0 ["kubectl delete node "]]
                                 ++ l') as [l [l' Hl]].
    { rewrite (emitted_app _ _ _ Hl).
      apply elem_of_app. right. apply elem_of_app. left. constructor. }
    unfold deleteMaster. msteps. fold client. rewrite Hc. cbv beta iota. msteps.
    cbn [rt trace record]. fold k clean. rewrite Hclean. cbv beta iota.
    destruct (List.filter _ _) as [|ip ips] eqn:Hf; [contradiction |].
    cbn [length Nat.ltb Nat.leb]. unfold isHostName. msteps.
    cbn [rt trace record].
    fold master0 getNodes. rewrite Hnodes. cbv beta iota. msteps.
    cbn [rt trace record]. fold hostname. rewrite Hhost. cbv beta iota. msteps.
    cbn [rt trace record]. rewrite Hc0. cbv beta iota. msteps.
    cbn [rt trace record]. rewrite Hname, Hcmd.
    match goal with
    | |- context [oracle E ?tr ?e] => destruct (oracle E tr e) as [o [e'|]]
    end; cbv beta iota; msteps.
    + exists [client; clean; getNodes; hostname; EvGetHostSSHClient master0], [].
      cbn [ret world rt trace record]. now rewrite <- !app_assoc.
    + match goal with
      | |- context [errgroup.forEach ?nodes (updateLvscareStaticPod E ?yaml) ?w2] =>
          destruct (emits_forEach (fun _ => True) nodes (updateLvscareStaticPod E yaml)
                      (fun node => updateLvscareStaticPod_emits E _ yaml node
                                     (fun _ => I) (fun _ _ => I) I) w2)
            as [l [Hl _]]
      end.
      rewrite Hl. cbn [rt trace record].
      exists [client; clean; getNodes; hostname; EvGetHostSSHClient master0], l.
      now rewrite <- !app_assoc.
Qed.

End DeleteTheorems.

(** ** Joining masters *)

(** The same for the stages of the join. *)
Ltac emits_step2 :=
  match goal with
  | |- emits _ (if ?b then _ else _) => destruct b
  | |- emits _ _ => emits_step
  | |- emits _ _ =>
      progress unfold sendFileToHosts, sendKubeConfigFile, sendNewCertAndKey,
        sendRegistryCert, ReplaceKubeConfigV1991V1992, SendJoinMasterKubeConfigs,
        joinMasterConfig, sendJoinCPConfigWorker, sendJoinCPConfig, Command
  end.

Lemma traces_bind_seq {A B} (Q1 Q2 Q : list Event -> Prop)
      (m : M A) (f : A -> M B) :
  (forall l1 l2, Q1 l1 -> Q2 l2 -> Q (l1 ++ l2)) ->
  (forall l1, Q1 l1 -> Q l1) ->
  traces Q1 m -> (forall a, traces Q2 (f a)) -> traces Q (bind m f).
Proof.
  intros Happ Hstop Hm Hf w. unfold bind.
  destruct (Hm w) as [l [Hl HQ]].
  destruct (m w) as [a w' | msg w']; cbn in Hl.
  - destruct (Hf a w') as [l' [Hl' HQ']].
    exists (l ++ l'). rewrite Hl', Hl, app_assoc. auto.
  - exists l. auto.
Qed.

Lemma fetches_app (l1 l2 : list Event) : fetches (l1 ++ l2) = (fetches l1 + fetches l2)%nat.
Proof. unfold fetches. now rewrite List.filter_app, length_app. Qed.

Lemma tokenCreations_app (l1 l2 : list Event) :
  tokenCreations (l1 ++ l2) = (tokenCreations l1 + tokenCreations l2)%nat.
Proof. unfold tokenCreations. now rewrite List.filter_app, length_app. Qed.

Lemma quiet_fetches (l : list Event) :
  Forall quiet l -> fetches l = 0%nat /\ tokenCreations l = 0%nat.
Proof.
  induction 1 as [|e l He _ [IH1 IH2]]; [split; reflexivity |].
  destruct e; try contradiction; split; assumption.
Qed.

Section JoinFacts.
Context (E : Env).
Context (P : Event -> Prop).
Hypothesis HP : forall e, quiet e -> P e.

Local Ltac quiet_run := repeat emits_step2; try (apply HP; exact I).

Lemma replaceKubeConfigLoop_emits (masters : list IP) :
  emits P (replaceKubeConfigLoop E masters).
Proof.
  induction masters as [|v rest IH]; cbn [replaceKubeConfigLoop]; quiet_run.
  exact IH.
Qed.

Lemma sendKubeConfigFiles_emits (masters : list IP) (files : list string) :
  emits P (sendKubeConfigFiles E masters files).
Proof.
  induction files as [|f rest IH]; cbn [sendKubeConfigFiles]; quiet_run.
  exact IH.
Qed.

Lemma joinEachMaster_emits (cmd : string) (masters : list IP) :
  emits P (joinEachMaster E cmd masters).
Proof.
  induction masters as [|master rest IH]; cbn [joinEachMaster]; quiet_run.
  exact IH.
Qed.

Lemma Command_emits (version : string) (name : CommandType) :
  emits P (Command E version name).
Proof. quiet_run. Qed.

(** The stages of [joinMasters] that follow the credential fetch. *)
Lemma joinMasters_after_fetch_emits (masters : list IP) (err : error) :
  emits P
    (match err with Some _ => ret err | None =>
     bind (CopyStaticFiles E masters) (fun err =>
     match err with Some _ => ret err | None =>
     bind (SendJoinMasterKubeConfigs E masters [AdminConf; ControllerConf; SchedulerConf]) (fun err =>
     match err with Some _ => ret err | None =>
     bind (sendRegistryCert E masters) (fun err =>
     match err with Some _ => ret err | None =>
     bind (sendNewCertAndKey E masters) (fun err =>
     match err with Some _ => ret err | None =>
     bind (sendJoinCPConfig E masters) (fun err =>
     match err with Some _ => ret err | None =>
     bind this (fun k =>
     bind (Command E (getKubeVersion k) JoinMaster) (fun cmd =>
     if String.eqb cmd "" then
       ret (Some (fmt.Sprintf
                    "failed to get join master command, kubernetes version is %s"
                    [getKubeVersion k]))
     else joinEachMaster E cmd masters))
     end) end) end) end) end) end).
Proof.
  destruct err; [apply emits_ret |].
  apply emits_bind; [quiet_run | intros ?].
  destruct a; [apply emits_ret |].
  apply emits_bind.
  { unfold SendJoinMasterKubeConfigs.
    apply emits_bind; [apply sendKubeConfigFiles_emits | intros ?].
    destruct a; [apply emits_ret |].
    apply emits_bind; [| intros ?; quiet_run].
    unfold ReplaceKubeConfigV1991V1992. apply emits_bind; [apply emits_this | intros ?].
    destruct (_ || _); [apply replaceKubeConfigLoop_emits | apply emits_ret]. }
  intros ?. destruct a; [apply emits_ret |].
  apply emits_bind; [quiet_run | intros ?].
  destruct a; [apply emits_ret |].
  apply emits_bind; [quiet_run | intros ?].
  destruct a; [apply emits_ret |].
  apply emits_bind; [quiet_run | intros ?].
  destruct a; [apply emits_ret |].
  apply emits_bind; [apply emits_this | intros k].
  apply emits_bind; [apply Command_emits | intros cmd].
  destruct (String.eqb cmd ""); [apply emits_ret | apply joinEachMaster_emits].
Qed.

End JoinFacts.

Section JoinTheorems.
Context (E : Env).

Lemma GetJoinTokenHashAndKey_fetches :
  traces (fun l => fetches l = 1%nat /\ (tokenCreations l <= 1)%nat)
         (GetJoinTokenHashAndKey E).
Proof.
  intros w. unfold GetJoinTokenHashAndKey. mrun.
  ask Hup.
  { eexists. split; [reflexivity |]. split; [reflexivity | cbn; lia]. }
  destruct (Nat.eqb (length _) 2); mrun.
  2:{ eexists. split; [rewrite <- app_assoc; reflexivity |].
      split; [reflexivity | cbn; lia]. }
  ask Hcl.
  { eexists. split; [rewrite <- !app_assoc; reflexivity |].
    split; [reflexivity | cbn; lia]. }
  ask Htc.
  { eexists. split; [rewrite <- !app_assoc; reflexivity |].
    split; [reflexivity | vm_compute; lia]. }
  eexists. split; [rewrite <- !app_assoc; reflexivity |].
  split; [reflexivity | vm_compute; lia].
Qed.

(** C3, as the code has it.  A run of [joinMasters] on a non-empty list
    fetches the join credentials at most once, whatever the number of
    masters: exactly once when the configuration merge and the wait for
    SSH succeed, and not at all when one of these two earlier stages
    fails.  The token is created at most once as well. *)
Theorem joinMasters_fetches_credentials_once (w : World) (masters : list IP) :
  masters <> [] ->
  let run := emitted (joinMasters E masters) w in
  (fetches run <= 1)%nat
  /\ (tokenCreations run <= 1)%nat
  /\ (forall out1 out2,
         answered E (trace w)
           [Asked EvMergeKubeadmConfig (out1, None);
            Asked (EvWaitSSHReady 6 masters) (out2, None)] ->
         fetches run = 1%nat)
  /\ (forall out e,
         answered E (trace w) [Asked EvMergeKubeadmConfig (out, Some e)] ->
         fetches run = 0%nat)
  /\ (forall out1 out2 e,
         answered E (trace w)
           [Asked EvMergeKubeadmConfig (out1, None);
            Asked (EvWaitSSHReady 6 masters) (out2, Some e)] ->
         fetches run = 0%nat).
Proof.
  intros Hne run.
  destruct masters as [|m ms]; [contradiction |]. clear Hne.
  set (masters := m :: ms) in *.
  set (merge := EvMergeKubeadmConfig).
  set (wait := EvWaitSSHReady 6 masters).
  assert (Hrun : exists evs,
    trace (world (joinMasters E masters w)) = trace w ++ evs
    /\ ((exists out e, oracle E (trace w) merge = (out, Some e) /\ evs = [merge])
        \/ (exists out1 out2 e,
               oracle E (trace w) merge = (out1, None)
               /\ oracle E (trace w ++ [merge]) wait = (out2, Some e)
               /\ evs = [merge; wait])
        \/ (exists out1 out2 l,
               oracle E (trace w) merge = (out1, None)
               /\ oracle E (trace w ++ [merge]) wait = (out2, None)
               /\ evs = [merge; wait] ++ l
               /\ fetches l = 1%nat /\ (tokenCreations l <= 1)%nat))).
  { unfold joinMasters.
    change (Nat.eqb (length masters) 0) with false. cbv iota.
    msteps. fold merge.
    destruct (oracle E (trace w) merge) as [out1 [e|]] eqn:Hm;
      cbv beta iota; msteps; cbn [fst snd rt trace record]; msteps.
    { exists [merge]. split; [reflexivity |]. left. eauto. }
    cbn [rt trace record]. fold wait.
    destruct (oracle E (trace w ++ [merge]) wait) as [out2 [e|]] eqn:Hw;
      cbv beta iota; msteps.
    { exists [merge; wait]. cbn [ret world trace record].
      split; [now rewrite <- app_assoc |]. right; left. eauto 6. }
    match goal with
    | |- context [bind (GetJoinTokenHashAndKey E) ?f ?w2] =>
        destruct (traces_bind_seq
                    (fun l => fetches l = 1%nat /\ (tokenCreations l <= 1)%nat)
                    (Forall quiet)
                    (fun l => fetches l = 1%nat /\ (tokenCreations l <= 1)%nat)
                    (GetJoinTokenHashAndKey E) f) with (w := w2)
          as [l [Hl [Hf Ht]]]
    end.
    - intros l1 l2 [H1 H2] Hq. apply quiet_fetches in Hq as [Hq1 Hq2].
      rewrite fetches_app, tokenCreations_app. lia.
    - auto.
    - apply GetJoinTokenHashAndKey_fetches.
    - intros err. apply joinMasters_after_fetch_emits. auto.
    - exists ([merge; wait] ++ l). rewrite Hl. cbn [rt trace record].
      split; [now rewrite <- !app_assoc |]. right; right.
      exists out1, out2, l. auto. }
  destruct Hrun as [evs [Hevs Hrun]].
  assert (run = evs) as -> by (apply emitted_app; exact Hevs). clear Hevs.
  destruct Hrun as [[out [e [Hm ->]]] | [[out1 [out2 [e [Hm [Hw ->]]]]]
                   | [out1 [out2 [l [Hm [Hw [-> [Hf Ht]]]]]]]]].
  - repeat split; try (cbn; lia).
    + intros o1 o2 [Hm' _]. congruence.
  - repeat split; try (cbn; lia).
    + intros o1 o2 [_ [Hw' _]]. fold merge wait in Hw'. congruence.
  - rewrite fetches_app, tokenCreations_app.
    change (fetches [merge; wait]) with 0%nat.
    change (tokenCreations [merge; wait]) with 0%nat.
    repeat split; try lia.
    + intros o e [Hm' _]. congruence.
    + intros o1 o2 e [_ [Hw' _]]. fold merge wait in Hw'. congruence.
Qed.

End JoinTheorems.

(** ** The lock around the join configuration *)

Lemma lockScan_app (allowed : bool -> Event -> bool) (l1 l2 : list Event) :
  forall held,
    lockScan allowed held (l1 ++ l2) =
      match lockScan allowed held l1 with
      | Some held' => lockScan allowed held' l2
      | None => None
      end.
Proof.
  induction l1 as [|e l1 IH]; intros held; [reflexivity |].
  destruct e; cbn [app lockScan]; try (destruct (allowed held _); [apply IH | reflexivity]);
    destruct held; try reflexivity; apply IH.
Qed.

Section LockTheorems.
Context (E : Env).

Lemma disciplined_app (l1 l2 : list Event) :
  disciplined l1 -> disciplined l2 -> disciplined (l1 ++ l2).
Proof. unfold disciplined. intros H1 H2. now rewrite lockScan_app, H1. Qed.

Lemma sendJoinCPConfigWorker_trace (ip : IP) (w : World) :
  exists tail,
    trace (world (sendJoinCPConfigWorker E ip w)) =
      trace w ++ [EvLock;
                  EvSetAPIServerEndpoint (fmt.Sprintf "%s:6443" [GetMaster0IP (rt w)]);
                  EvSetJoinAdvertiseAddress ip;
                  EvGetCgroupDriverFromShell ip] ++ tail
    /\ lockScan actualDiscipline true tail = Some false.
Proof.
  unfold sendJoinCPConfigWorker, joinMasterConfig. mrun.
  ask Hprobe.
  { exists [EvUnlock]. split; [now rewrite <- !app_assoc | reflexivity]. }
  destruct (MarshalWithDelimiter E _) as [doc [e|]]; mrun.
  { eexists. split; [rewrite <- !app_assoc; reflexivity | reflexivity]. }
  ask Hcl.
  { eexists. split; [rewrite <- !app_assoc; reflexivity | reflexivity]. }
  ask Hcmd;
    (eexists; split; [rewrite <- !app_assoc; reflexivity | reflexivity]).
Qed.

Lemma sendJoinCPConfigWorkers_one_mutex (masters : list IP) :
  emits (fun e => e <> EvNewMutex)
        (errgroup.forEach masters (sendJoinCPConfigWorker E)).
Proof. repeat emits_step2; discriminate. Qed.

(** C9, as the code has it.  In the rendering of the join configurations
    every access of the shared configuration happens while the lock is
    held, the lock is released before the rendered document is written to
    the host, and the only network I/O under the lock is the probe of the
    host's cgroup driver.  One mutex is installed per batch, before any
    worker starts.  Each worker, whatever happened before it, takes the
    lock, stamps the endpoint and the advertise address and then probes the
    driver, still under the lock. *)
Theorem sendJoinCPConfig_lock_discipline (w : World) (masters : list IP) :
  lockScan actualDiscipline false (emitted (sendJoinCPConfig E masters) w)
  = Some false
  /\ (exists l, emitted (sendJoinCPConfig E masters) w = EvNewMutex :: l
                /\ Forall (fun e => e <> EvNewMutex) l)
  /\ (forall ip w', exists tail,
         emitted (sendJoinCPConfigWorker E ip) w' =
           [EvLock;
            EvSetAPIServerEndpoint (fmt.Sprintf "%s:6443" [GetMaster0IP (rt w')]);
            EvSetJoinAdvertiseAddress ip;
            EvGetCgroupDriverFromShell ip] ++ tail
         /\ lockScan actualDiscipline true tail = Some false).
Proof.
  split; [| split].
  - apply (traces_emitted disciplined).
    unfold sendJoinCPConfig.
    apply (traces_bind disciplined disciplined_app); [| intros _].
    + apply traces_note. reflexivity.
    + apply (traces_forEach disciplined eq_refl disciplined_app).
      intros ip w'. destruct (sendJoinCPConfigWorker_trace ip w') as [tail [Ht Hs]].
      eexists. split; [exact Ht |]. unfold disciplined. cbn. exact Hs.
  - destruct (sendJoinCPConfigWorkers_one_mutex masters (record w EvNewMutex))
      as [l [Hl Hone]].
    exists l. split; [| exact Hone].
    apply emitted_app. unfold sendJoinCPConfig. rewrite bind_note, Hl.
    cbn [rt trace record]. now rewrite <- app_assoc.
  - intros ip w'. destruct (sendJoinCPConfigWorker_trace ip w') as [tail [Ht Hs]].
    exists tail. split; [apply emitted_app, Ht | exact Hs].
Qed.

End LockTheorems.

(** ** The statements at work on the sample cluster *)

Lemma joinMasters_fetches_credentials_once_witness :
  ["192.168.0.7"; "192.168.0.8"] <> ([] : list string)
  /\ fetches (emitted (joinMasters env0 ["192.168.0.7"; "192.168.0.8"]) w0) = 1%nat.
Proof.
  assert (Hne : ["192.168.0.7"; "192.168.0.8"] <> ([] : list string))
    by discriminate.
  split; [exact Hne |].
  destruct (joinMasters_fetches_credentials_once
              env0 w0 ["192.168.0.7"; "192.168.0.8"] Hne)
    as [_ [_ [Honce _]]].
  exact (Honce "" "" (conj eq_refl (conj eq_refl I))).
Defined.

(** C3, as stated, fails: when the masters do not become reachable the run
    ends before the fetch, which is then executed zero times. *)
Lemma joinMasters_fetch_counterexample :
  let E := env false ([], None) (failing isWaitSSHReady) in
  ["192.168.0.7"] <> ([] : list string)
  /\ value (joinMasters E ["192.168.0.7"] w0)
     = Some (Some "join masters wait for ssh ready time out: connection refused")
  /\ emitted (joinMasters E ["192.168.0.7"]) w0
     = [EvMergeKubeadmConfig; EvWaitSSHReady 6 ["192.168.0.7"]]
  /\ fetches (emitted (joinMasters E ["192.168.0.7"]) w0) = 0%nat.
Proof. cbv zeta. split; [discriminate |]. repeat split; vm_compute; reflexivity. Qed.

Lemma deleteMaster_unreachable_is_fatal_witness :
  let E := env false ([], None) (failing (isClientOf "192.168.0.3")) in
  answered E (trace w0)
    [Asked (EvGetHostSSHClient "192.168.0.3") ("", Some "connection refused")]
  /\ value (deleteMaster E "192.168.0.3" w0)
     = Some (Some "failed to delete master: connection refused")
  /\ emitted (deleteMaster E "192.168.0.3") w0 = [EvGetHostSSHClient "192.168.0.3"].
Proof.
  cbv zeta.
  set (E := env false ([], None) (failing (isClientOf "192.168.0.3"))).
  assert (Hans : answered E (trace w0)
                   [Asked (EvGetHostSSHClient "192.168.0.3")
                          ("", Some "connection refused")])
    by (split; [reflexivity | exact I]).
  split; [exact Hans |].
  destruct (deleteMaster_unreachable_is_fatal E w0 "192.168.0.3") as [Hfatal _].
  exact (Hfatal "" "connection refused" Hans).
Defined.

(** C4, as stated, fails: with the master unreachable, be it for the SSH
    client or for the clean-up bundle, [deleteMaster] returns the failure
    and touches neither master0 nor any worker node. *)
Lemma deleteMaster_unreachable_counterexample :
  let E1 := env false ([], None) (failing (isClientOf "192.168.0.3")) in
  let E2 := env false ([], None) (failing (isCmdAsyncOn "192.168.0.3")) in
  (value (deleteMaster E1 "192.168.0.3" w0)
   = Some (Some "failed to delete master: connection refused")
   /\ emitted (deleteMaster E1 "192.168.0.3") w0 = [EvGetHostSSHClient "192.168.0.3"])
  /\ (value (deleteMaster E2 "192.168.0.3" w0) = Some (Some "connection refused")
      /\ emitted (deleteMaster E2 "192.168.0.3") w0
         = [EvGetHostSSHClient "192.168.0.3";
            EvCmdAsync "192.168.0.3" (remoteCleanCmd E2 k0 "192.168.0.3")]).
Proof. cbv zeta. repeat split; vm_compute; reflexivity. Qed.

Lemma deleteMaster_last_master_no_delete_node_witness :
  List.filter (fun ip => negb (IP_Equal ip "192.168.0.2")) (GetMasterIPList (rt w1)) = []
  /\ Forall (fun e => issuesDeleteNode e = false)
            (emitted (deleteMaster env0 "192.168.0.2") w1).
Proof.
  split; [reflexivity |].
  exact (deleteMaster_last_master_no_delete_node env0 w1 "192.168.0.2" eq_refl).
Defined.

Lemma remoteCleanCmd_local_or_remote_witness :
  let E := env false (["192.168.0.3"], None) allFine in
  localHost E "192.168.0.3" = true
  /\ "cat /etc/hosts |grep '192.168.0.2 apiserver.cluster.local' || echo '192.168.0.2 apiserver.cluster.local' >> /etc/hosts"
       ∈ remoteCleanCmd E k0 "192.168.0.3"
  /\ RemoveKubeConfig ∉ remoteCleanCmd E k0 "192.168.0.3".
Proof.
  cbv zeta.
  set (E := env false (["192.168.0.3"], None) allFine).
  assert (Hlocal : localHost E "192.168.0.3" = true) by reflexivity.
  split; [exact Hlocal |].
  destruct (remoteCleanCmd_local_or_remote E k0 "192.168.0.3") as [Hloc _].
  exact (Hloc Hlocal).
Defined.

Lemma deleteMaster_unmatched_hostname_witness :
  let E := env false ([], None) strangeHostName in
  value (isHostName E "192.168.0.2" "192.168.0.3"
           (record (record w0 (EvGetHostSSHClient "192.168.0.3"))
                   (EvCmdAsync "192.168.0.3" (remoteCleanCmd E k0 "192.168.0.3"))))
  = Some ("", None)
  /\ EvCmdAsync "192.168.0.2" ["kubectl delete node "]
       ∈ emitted (deleteMaster E "192.168.0.3") w0.
Proof.
  cbv zeta.
  set (E := env false ([], None) strangeHostName).
  apply (deleteMaster_unmatched_hostname
           E w0 "192.168.0.3" "root" "" "node-a,node-b" "node-c" "root").
  - discriminate.
  - repeat split; reflexivity.
  - intros h Hin _ Heq.
    assert (Hsplit : strings.Split "node-a,node-b" "," = ["node-a"; "node-b"])
      by reflexivity.
    rewrite Hsplit in Hin. apply list_elem_of_In in Hin.
    destruct Hin as [<- | [<- | []]]; discriminate Heq.
Defined.

(** C9, as stated, fails: the worker of 192.168.0.7 probes the cgroup
    driver of the host, over the network, between taking the lock and
    releasing it. *)
Lemma sendJoinCPConfig_lock_counterexample :
  emitted (sendJoinCPConfig env0 ["192.168.0.7"]) w0 =
    [EvNewMutex; EvLock; EvSetAPIServerEndpoint "192.168.0.2:6443";
     EvSetJoinAdvertiseAddress "192.168.0.7";
     EvGetCgroupDriverFromShell "192.168.0.7";
     EvSetCgroupDriver "systemd"; EvMarshalJoinConfig; EvUnlock;
     EvGetHostSSHClient "192.168.0.7";
     EvCmdAsync "192.168.0.7"
       [fmt.Sprintf RemoteJoinMasterConfig
          ["advertiseAddress: 192.168.0.7"; "/var/lib/sealer/data/my-cluster/rootfs"]]]
  /\ isNetwork (EvGetCgroupDriverFromShell "192.168.0.7") = true
  /\ lockScan claimedDiscipline false
       (emitted (sendJoinCPConfig env0 ["192.168.0.7"]) w0) = None.
Proof. repeat split; vm_compute; reflexivity. Qed.
